(** * Lesson booking: slot validation and teacher availability

    Shallow embedding of the booking logic of the [teaching] app:
    - [validate_start_time] and [LessonDetailSerializer_validate]
      (teaching/serializers.py), composed in [is_valid] the way DRF runs
      field validators and then [validate];
    - [Lesson_save] (teaching/models.py) and the create path of
      [LessonViewSet.perform_create] (teaching/views.py);
    - [TeacherAvailabilityView_get] (teaching/views.py);
    - [ScheduleSerializer_validate] and [ScheduleViewSet.perform_create] /
      [perform_update] (teaching/serializers.py, teaching/views.py).

    Time model.  A timestamp is a [Z] counting seconds of local wall-clock
    time (the project's [TIME_ZONE]) from a Monday midnight; the date of a
    timestamp is [t / 86400], its weekday ([datetime.weekday()]) is
    [(t / 86400) mod 7] with Monday = 0, and its time of day
    ([datetime.time()]) is [t mod 86400].  A time of day ([TimeField]) is a
    [Z] in [0, 86400).  Sub-second parts are taken to be zero and daylight
    saving changes are not modelled.  Values read back from the database
    are UTC; their wall-clock reading is the local one minus [utc_offset]. *)

From Stdlib Require Import ZArith List Bool Lia Sorted.
Import ListNotations.
Open Scope Z_scope.

(* ------------------------------------------------------------------ *)
(** ** Time *)

Definition HOUR : Z := 3600.
Definition DAY : Z := 86400.

(** [datetime.date()] as a day number *)
Definition date_of (t : Z) : Z := t / DAY.
(** [datetime.time()] *)
Definition time_of (t : Z) : Z := t mod DAY.
(** [datetime.weekday()], Monday = 0 *)
Definition weekday_index (t : Z) : Z := (t / DAY) mod 7.
(** [datetime.combine(date, time)] *)
Definition combine (d tm : Z) : Z := d * DAY + tm.

(** [Schedule.WEEKDAYS] *)
Inductive weekday :=
| monday | tuesday | wednesday | thursday | friday | saturday | sunday.

Definition weekday_eqb (a b : weekday) : bool :=
  match a, b with
  | monday, monday | tuesday, tuesday | wednesday, wednesday
  | thursday, thursday | friday, friday | saturday, saturday
  | sunday, sunday => true
  | _, _ => false
  end.

(** [["monday", ..., "sunday"][i]], also what [strftime("%A").lower()]
    yields for a day whose [weekday()] is [i] *)
Definition weekday_name (i : Z) : weekday :=
  match i with
  | 0 => monday | 1 => tuesday | 2 => wednesday | 3 => thursday
  | 4 => friday | 5 => saturday | _ => sunday
  end.

(** [datetime.strptime("23:59:59", "%H:%M:%S").time()] *)
Definition T_23_59_59 : Z := 23 * 3600 + 59 * 60 + 59.
(** [datetime.strptime("00:00:00", "%H:%M:%S").time()] *)
Definition T_00_00_00 : Z := 0.

(* ------------------------------------------------------------------ *)
(** ** Models (teaching/models.py) *)

Record Schedule := mkSchedule {
  sched_teacher : nat;
  sched_weekday : weekday;
  sched_start_time : Z;
  sched_end_time : Z
}.

Inductive LessonStatus :=
| VOID | APPROVED | CANCELLED_BY_TEACHER | CANCELLED_BY_STUDENT | DONE.

(** [status__in=[LessonStatus.VOID, LessonStatus.APPROVED]] *)
Definition blocking (s : LessonStatus) : bool :=
  match s with VOID | APPROVED => true | _ => false end.

Record Lesson := mkLesson {
  lesson_teacher : nat;
  lesson_start_time : Z;
  lesson_end_time : option Z;   (* [null=True] *)
  lesson_status : LessonStatus
}.

(* ------------------------------------------------------------------ *)
(** ** Booking validation (teaching/serializers.py) *)

(** The booking fields of a create request to [LessonViewSet], after the
    teacher has been resolved from the user or from [teacher_id].
    [req_teaches_subject] and [req_teaches_category] are the values of
    [subject in teacher.subjects.all()] and
    [category in teacher.categories.all()]. *)
Record BookingRequest := mkBookingRequest {
  req_teacher : nat;
  req_start_time : Z;
  req_duration_hours : Z;
  req_teaches_subject : bool;
  req_teaches_category : bool
}.

Inductive Rejection :=
| PastStart            (* "Cannot schedule a lesson in the past." *)
| MisalignedStart      (* "Lessons must start exactly on the hour." *)
| InvalidDuration      (* [ChoiceField(choices=[1, 2])] *)
| SubjectNotTaught
| CategoryNotTaught
| SlotTaken            (* "... overlaps with another lesson ..." *)
| OutsideAvailability. (* "... does not fit within the teacher's ... schedule." *)

Inductive Verdict := Accepted | Rejected (r : Rejection).

(** [LessonDetailSerializer.validate_start_time] *)
Definition validate_start_time (now value : Z) : option Rejection :=
  if value <? now then Some PastStart
  else if negb (value mod HOUR =? 0) then Some MisalignedStart
  else None.

(** [duration_hours = serializers.ChoiceField(choices=[1, 2])] *)
Definition validate_duration_hours (d : Z) : option Rejection :=
  if (d =? 1) || (d =? 2) then None else Some InvalidDuration.

(** [Lesson.objects.filter(teacher=teacher, status__in=[VOID, APPROVED],
    start_time__lt=end_time, end_time__gt=start_time).exists()].
    In SQL a NULL [end_time] makes [end_time > start_time] unknown, so the
    row is not selected. *)
Definition overlapping_lessons_exist (lessons : list Lesson)
    (teacher : nat) (start_time end_time : Z) : bool :=
  existsb (fun l =>
    Nat.eqb (lesson_teacher l) teacher
    && blocking (lesson_status l)
    && (lesson_start_time l <? end_time)
    && match lesson_end_time l with
       | Some e => start_time <? e
       | None => false
       end) lessons.

(** [Schedule.objects.filter(teacher=teacher, weekday=day, ...).exists()]
    with the remaining lookups given by [p] *)
Definition schedule_exists (schedules : list Schedule) (teacher : nat)
    (day : weekday) (p : Schedule -> bool) : bool :=
  existsb (fun s =>
    Nat.eqb (sched_teacher s) teacher
    && weekday_eqb (sched_weekday s) day
    && p s) schedules.

(** The availability part of [LessonDetailSerializer.validate]
    (serializers.py, from [lesson_day_name = ...] to the end of the
    [if lesson_end_time <= lesson_start_time ... else ...] statement). *)
Definition schedule_coverage (schedules : list Schedule) (teacher : nat)
    (start_time : Z) (duration_hours : Z) : option Rejection :=
  let end_time := start_time + duration_hours * HOUR in
  let lesson_day_name := weekday_name (weekday_index start_time) in
  let lesson_start_time := time_of start_time in
  let lesson_end_time := time_of end_time in
  if lesson_end_time <=? lesson_start_time then
    let schedule_part1 :=
      schedule_exists schedules teacher lesson_day_name (fun s =>
        (sched_start_time s <=? lesson_start_time)
        && (sched_end_time s =? T_23_59_59)) in
    let next_day_index := (weekday_index start_time + 1) mod 7 in
    let next_day_name := weekday_name next_day_index in
    let schedule_part2 :=
      schedule_exists schedules teacher next_day_name (fun s =>
        (sched_start_time s =? T_00_00_00)
        && (lesson_end_time <=? sched_end_time s)) in
    if schedule_part1 && schedule_part2 then None
    else Some OutsideAvailability
  else
    let schedule_exists_ :=
      schedule_exists schedules teacher lesson_day_name (fun s =>
        (sched_start_time s <=? lesson_start_time)
        && (lesson_end_time <=? sched_end_time s)) in
    if schedule_exists_ then None
    else if duration_hours =? 2 then
      let first_hour_schedule :=
        schedule_exists schedules teacher lesson_day_name (fun s =>
          (sched_start_time s <=? lesson_start_time)
          && (time_of (start_time + HOUR) <=? sched_end_time s)) in
      let second_hour_schedule :=
        schedule_exists schedules teacher lesson_day_name (fun s =>
          (sched_start_time s <=? time_of (start_time + HOUR))
          && (lesson_end_time <=? sched_end_time s)) in
      if first_hour_schedule && second_hour_schedule then None
      else Some OutsideAvailability
    else Some OutsideAvailability.

(** [LessonDetailSerializer.validate] on a create request, from the
    subject check on (the role checks before it only resolve the
    teacher, which [req_teacher] already holds). *)
Definition LessonDetailSerializer_validate (lessons : list Lesson)
    (schedules : list Schedule) (req : BookingRequest) : option Rejection :=
  let start_time := req_start_time req in
  let duration_hours := req_duration_hours req in
  let end_time := start_time + duration_hours * HOUR in
  if negb (req_teaches_subject req) then Some SubjectNotTaught
  else if negb (req_teaches_category req) then Some CategoryNotTaught
  else if overlapping_lessons_exist lessons (req_teacher req) start_time end_time
  then Some SlotTaken
  else schedule_coverage schedules (req_teacher req) start_time duration_hours.

(** [serializer.is_valid()]: the field validators run first ([start_time]
    is declared before [duration_hours]; DRF reports every field error
    together, the model reports the first one), then [validate]. *)
Definition is_valid (now : Z) (lessons : list Lesson)
    (schedules : list Schedule) (req : BookingRequest) : Verdict :=
  match validate_start_time now (req_start_time req) with
  | Some r => Rejected r
  | None =>
    match validate_duration_hours (req_duration_hours req) with
    | Some r => Rejected r
    | None =>
      match LessonDetailSerializer_validate lessons schedules req with
      | Some r => Rejected r
      | None => Accepted
      end
    end
  end.

(* ------------------------------------------------------------------ *)
(** ** Persisting a booking (teaching/models.py, teaching/views.py) *)

(** [Lesson.save]: [start_time] is a non-null [DateTimeField], so the
    guard reduces to [not self.end_time]; only then is [super().save()]
    reached and the row stored. *)
Definition Lesson_save (l : Lesson) (store : list Lesson) : list Lesson :=
  match lesson_end_time l with
  | None => l :: store
  | Some _ => store
  end.

(** Keyword arguments of a Django model constructor. *)
Inductive LessonKwarg :=
| kw_student | kw_teacher | kw_subject | kw_category | kw_start_time
| kw_end_time | kw_homework | kw_status | kw_is_paid | kw_google_meet_link
| kw_duration_hours.

(** Fields of [Lesson]; [Lesson(...)] raises [TypeError] on any other
    keyword ([duration_hours] is neither a field nor a property). *)
Definition lesson_field (k : LessonKwarg) : bool :=
  match k with kw_duration_hours => false | _ => true end.

(** Keys passed to [Lesson._default_manager.create] by
    [ModelSerializer.create] from the student branch of
    [LessonViewSet.perform_create]: the validated data ([student],
    [subject], [category], [start_time], [duration_hours] with its default
    1, [is_paid] with its default [False], [end_time] and [teacher] set by
    [validate]) merged with the [save] keywords. *)
Definition create_kwargs : list LessonKwarg :=
  [kw_student; kw_subject; kw_category; kw_start_time; kw_duration_hours;
   kw_is_paid; kw_end_time; kw_teacher].

Inductive CreateError := Invalid (r : Rejection) | TypeError.

(** [Lesson._default_manager.create(...)]: construct, then
    [obj.save(force_insert=True)]. *)
Definition Lesson_objects_create (kwargs : list LessonKwarg) (l : Lesson)
    (store : list Lesson) : (CreateError + Lesson) * list Lesson :=
  if forallb lesson_field kwargs then (inr l, Lesson_save l store)
  else (inl TypeError, store).

(** [POST /lessons/]: [is_valid] then [perform_create]; the new lesson
    gets the default status [VOID] and the [end_time] set by [validate]. *)
Definition create_booking (now : Z) (store : list Lesson)
    (schedules : list Schedule) (req : BookingRequest)
    : (CreateError + Lesson) * list Lesson :=
  match is_valid now store schedules req with
  | Rejected r => (inl (Invalid r), store)
  | Accepted =>
    let start_time := req_start_time req in
    Lesson_objects_create create_kwargs
      (mkLesson (req_teacher req) start_time
         (Some (start_time + req_duration_hours req * HOUR)) VOID)
      store
  end.

(* ------------------------------------------------------------------ *)
(** ** Teacher availability ([TeacherAvailabilityView.get]) *)

(** The [while current < end: ...; current += timedelta(hours=1)] loops,
    run for exactly the number of rounds the guard allows. *)
Fixpoint hour_steps (fuel : nat) (current end_ : Z) : list Z :=
  match fuel with
  | O => []
  | S f => if current <? end_ then current :: hour_steps f (current + HOUR) end_
           else []
  end.

Definition hours_between (start end_ : Z) : list Z :=
  hour_steps (Z.to_nat ((end_ - start + HOUR - 1) / HOUR)) start end_.

Definition mem (x : Z) (xs : list Z) : bool := existsb (Z.eqb x) xs.

Record AvailabilitySlot := mkSlot {
  slot_start_time : Z;
  can_book_2_hours : bool
}.

(** [insert] of an insertion sort on [start_time], for [order_by("weekday",
    "start_time")] restricted to one weekday *)
Fixpoint insert_by_start (s : Schedule) (l : list Schedule) : list Schedule :=
  match l with
  | [] => [s]
  | x :: r => if sched_start_time s <? sched_start_time x then s :: l
              else x :: insert_by_start s r
  end.

Definition sort_by_start (l : list Schedule) : list Schedule :=
  fold_right insert_by_start [] l.

Section Availability.

(** Offset of local time from UTC ([TIME_ZONE = "Europe/Kiev"]). *)
Variable utc_offset : Z.

(** [Lesson.objects.filter(teacher=teacher, status__in=[VOID, APPROVED],
    start_time__date__gte=date_from, start_time__date__lte=date_to)];
    [__date] is taken in the current (local) time zone. *)
Definition booked_lessons (teacher : nat) (date_from date_to : Z)
    (lessons : list Lesson) : list Lesson :=
  filter (fun l =>
    Nat.eqb (lesson_teacher l) teacher
    && blocking (lesson_status l)
    && (date_from <=? date_of (lesson_start_time l))
    && (date_of (lesson_start_time l) <=? date_to)) lessons.

(** [booked_slots]: the values come back from the database in UTC and
    [replace(tzinfo=None)] keeps that UTC wall-clock reading. *)
Definition booked_slots (booked : list Lesson) : list Z :=
  flat_map (fun l =>
    let start := lesson_start_time l in
    match lesson_end_time l with
    | Some end_ => map (fun t => t - utc_offset) (hours_between start end_)
    | None => [start - utc_offset]
    end) booked.

(** The inner [while current_slot_dt < slot_end_dt] loop over one
    schedule row, on date [d]. *)
Definition window_slots (now : Z) (booked : list Z) (d : Z) (s : Schedule)
    : list AvailabilitySlot :=
  let slot_start_dt := combine d (sched_start_time s) in
  let slot_end_dt := combine d (sched_end_time s) in
  flat_map (fun current_slot_dt =>
    let is_past_slot := current_slot_dt <=? now in
    let is_booked := mem current_slot_dt booked in
    if negb is_booked && negb is_past_slot then
      let next_slot_dt := current_slot_dt + HOUR in
      let can_book_2 :=
        (next_slot_dt <? slot_end_dt) && negb (mem next_slot_dt booked) in
      [mkSlot current_slot_dt can_book_2]
    else []) (hours_between slot_start_dt slot_end_dt).

(** [current_date] runs over [date_from .. date_to] inclusive *)
Definition date_range (date_from date_to : Z) : list Z :=
  map (fun i => date_from + Z.of_nat i)
      (seq 0 (Z.to_nat (date_to - date_from + 1))).

(** [TeacherAvailabilityView.get] after the dates are parsed: the
    [availability] dict as a list of [(date, daily_slots)] entries.
    [timezone.now()] is read once as [now]. *)
Definition TeacherAvailabilityView_get (now : Z) (teacher : nat)
    (date_from date_to : Z) (schedules : list Schedule)
    (lessons : list Lesson) : list (Z * list AvailabilitySlot) :=
  let booked := booked_slots (booked_lessons teacher date_from date_to lessons) in
  let teacher_schedules :=
    sort_by_start (filter (fun s => Nat.eqb (sched_teacher s) teacher) schedules) in
  flat_map (fun current_date =>
    let weekday_name_ := weekday_name (current_date mod 7) in
    let day_schedules :=
      filter (fun s => weekday_eqb (sched_weekday s) weekday_name_)
             teacher_schedules in
    let daily_slots :=
      flat_map (window_slots now booked current_date) day_schedules in
    match daily_slots with
    | [] => []
    | _ => [(current_date, daily_slots)]
    end) (date_range date_from date_to).

End Availability.

(* ------------------------------------------------------------------ *)
(** ** Schedules ([ScheduleSerializer], [ScheduleViewSet]) *)

(** The writable fields of a submitted schedule; [None] when absent from
    the request body. *)
Record ScheduleSubmission := mkSubmission {
  sub_weekday : option weekday;
  sub_start_time : option Z;
  sub_end_time : option Z
}.

Inductive ScheduleAction :=
| Create                  (* POST *)
| Update (pk : nat)       (* PUT *)
| PartialUpdate (pk : nat). (* PATCH *)

Inductive ScheduleError :=
| ValidationError   (* 400 *)
| KeyError          (* [serializer.validated_data["start_time"]] on a PATCH without it *)
| NotFound.         (* [get_object()] *)

Record ScheduleStore := mkStore {
  rows : list (nat * Schedule);
  next_pk : nat
}.

(** [ScheduleSerializer.validate]; [datetime.time] values are always
    truthy. *)
Definition ScheduleSerializer_validate (sub : ScheduleSubmission)
    : option ScheduleError :=
  match sub_start_time sub, sub_end_time sub with
  | Some s, Some e => if e <=? s then Some ValidationError else None
  | _, _ => None
  end.

(** Field-level validation: the model fields are required unless the
    update is partial. *)
Definition required_fields (partial : bool) (sub : ScheduleSubmission)
    : option ScheduleError :=
  if partial then None
  else match sub_weekday sub, sub_start_time sub, sub_end_time sub with
       | Some _, Some _, Some _ => None
       | _, _, _ => Some ValidationError
       end.

Definition action_pk (act : ScheduleAction) : option nat :=
  match act with
  | Create => None
  | Update pk | PartialUpdate pk => Some pk
  end.

Definition action_partial (act : ScheduleAction) : bool :=
  match act with PartialUpdate _ => true | _ => false end.

(** [get_object()] on [get_queryset()], the teacher's own rows *)
Definition own_row (teacher : nat) (st : ScheduleStore) (pk : nat) : bool :=
  existsb (fun r => Nat.eqb (fst r) pk && Nat.eqb (sched_teacher (snd r)) teacher)
          (rows st).

(** [serializer.save(teacher=teacher_profile)]: insert, or overwrite the
    instance being updated *)
Definition save_schedule (act : ScheduleAction) (row : Schedule)
    (st : ScheduleStore) : ScheduleStore :=
  match action_pk act with
  | None => mkStore ((next_pk st, row) :: rows st) (S (next_pk st))
  | Some pk =>
    mkStore (map (fun r => if Nat.eqb (fst r) pk then (pk, row) else r) (rows st))
            (next_pk st)
  end.

(** [ScheduleViewSet.perform_create] ([perform_update] calls it too). *)
Definition ScheduleViewSet_perform_create (teacher : nat)
    (act : ScheduleAction) (sub : ScheduleSubmission) (st : ScheduleStore)
    : ScheduleError + ScheduleStore :=
  match sub_start_time sub, sub_end_time sub, sub_weekday sub with
  | Some start_time, Some end_time, Some wd =>
    let overlapping_schedules :=
      existsb (fun r =>
        Nat.eqb (sched_teacher (snd r)) teacher
        && weekday_eqb (sched_weekday (snd r)) wd
        && (sched_start_time (snd r) <? end_time)
        && (start_time <? sched_end_time (snd r))
        && match action_pk act with
           | Some pk => negb (Nat.eqb (fst r) pk)
           | None => true
           end) (rows st) in
    if overlapping_schedules then inl ValidationError
    else inr (save_schedule act (mkSchedule teacher wd start_time end_time) st)
  | _, _, _ => inl KeyError
  end.

(** One create / update / partial update request of a teacher on
    [ScheduleViewSet]: [get_object()] for updates, [is_valid()], then
    [perform_create] / [perform_update]. *)
Definition schedule_request (teacher : nat) (act : ScheduleAction)
    (sub : ScheduleSubmission) (st : ScheduleStore)
    : ScheduleError + ScheduleStore :=
  let found :=
    match action_pk act with
    | Some pk => if own_row teacher st pk then None else Some NotFound
    | None => None
    end in
  match found with
  | Some err => inl err
  | None =>
    match required_fields (action_partial act) sub with
    | Some err => inl err
    | None =>
      match ScheduleSerializer_validate sub with
      | Some err => inl err
      | None => ScheduleViewSet_perform_create teacher act sub st
      end
    end
  end.

(** Every stored window has [start_time < end_time]. *)
Definition windows_well_formed (st : ScheduleStore) : Prop :=
  forall pk s, In (pk, s) (rows st) -> sched_start_time s < sched_end_time s.

(** [Meta.unique_together = ("teacher", "weekday", "start_time",
    "end_time")]: another row (not the one being changed) with the same
    four values. *)
Definition unique_together_clash (pk : option nat) (row : Schedule)
    (st : ScheduleStore) : bool :=
  existsb (fun r =>
    match pk with Some p => negb (Nat.eqb (fst r) p) | None => true end
    && Nat.eqb (sched_teacher (snd r)) (sched_teacher row)
    && weekday_eqb (sched_weekday (snd r)) (sched_weekday row)
    && (sched_start_time (snd r) =? sched_start_time row)
    && (sched_end_time (snd r) =? sched_end_time row)) (rows st).

(** Saving the add ([None]) or change ([Some pk]) form of [ScheduleAdmin],
    a plain [ModelAdmin]: the model form checks each field's type and
    [unique_together]; [Schedule] has no [clean], so nothing relates
    [start_time] to [end_time]. *)
Definition ScheduleAdmin_save (pk : option nat) (row : Schedule)
    (st : ScheduleStore) : ScheduleError + ScheduleStore :=
  if unique_together_clash pk row st then inl ValidationError
  else inr (save_schedule (match pk with Some p => Update p | None => Create end)
              row st).

(* ------------------------------------------------------------------ *)
(** ** Lesson status actions ([LessonViewSet.cancel_lesson],
    [LessonViewSet.approve_lesson], [Lesson.update_status_if_expired]) *)

(** [BaseUser.ROLE_STUDENT], [BaseUser.ROLE_TEACHER] *)
Inductive Role := ROLE_STUDENT | ROLE_TEACHER.

Definition role_is (r : option Role) (x : Role) : bool :=
  match r, x with
  | Some ROLE_STUDENT, ROLE_STUDENT | Some ROLE_TEACHER, ROLE_TEACHER => true
  | _, _ => false
  end.

(** The authenticated user: its nullable [role] and the primary keys of
    its [teacher_profile] / [student_profile] when they exist. *)
Record User := mkUser {
  user_role : option Role;
  user_teacher_profile : option nat;
  user_student_profile : option nat
}.

(** A row of the lesson table: primary key, [student_id], the columns
    of [Lesson] above, and [is_paid]. *)
Record LessonRow := mkRow {
  row_pk : nat;
  row_student : nat;
  row_lesson : Lesson;
  row_is_paid : bool
}.

(** [profile == x] where [profile] may be missing *)
Definition profile_is (p : option nat) (x : nat) : bool :=
  match p with Some y => Nat.eqb y x | None => false end.

(** The ownership filter of [LessonViewSet.get_queryset] *)
Definition lesson_visible (u : User) (r : LessonRow) : bool :=
  match user_teacher_profile u, user_student_profile u with
  | Some t, _ => Nat.eqb (lesson_teacher (row_lesson r)) t
  | None, Some s => Nat.eqb (row_student r) s
  | None, None => false
  end.

(** [self.get_object()]: the row with that key in [get_queryset()] *)
Definition get_object (u : User) (db : list LessonRow) (pk : nat)
    : option LessonRow :=
  find (fun r => Nat.eqb (row_pk r) pk && lesson_visible u r) db.

(** [lesson.save(update_fields=[...])] on a row read from the table:
    [Lesson.save] reaches [super().save()] only when [end_time] is empty. *)
Definition Lesson_save_row (r : LessonRow) (db : list LessonRow)
    : list LessonRow :=
  match lesson_end_time (row_lesson r) with
  | None => map (fun x => if Nat.eqb (row_pk x) (row_pk r) then r else x) db
  | Some _ => db
  end.

(** [lesson.status = s] *)
Definition set_status (r : LessonRow) (s : LessonStatus) : LessonRow :=
  let l := row_lesson r in
  mkRow (row_pk r) (row_student r)
    (mkLesson (lesson_teacher l) (lesson_start_time l) (lesson_end_time l) s)
    (row_is_paid r).

Inductive ActionError := Http400 | Http403 | Http404.

(** [LessonViewSet.cancel_lesson]; [cancel_deadline] is
    [settings.LESSON_CANCEL_DEADLINE_HOURS] (3 unless set in the
    environment).  The result is the status of the response, or the
    error, and the table afterwards; the notification row is not
    modelled. *)
Definition cancel_lesson (cancel_deadline now : Z) (u : User) (pk : nat)
    (db : list LessonRow) : (ActionError + LessonStatus) * list LessonRow :=
  match get_object u db pk with
  | None => (inl Http404, db)
  | Some r =>
    let lesson := row_lesson r in
    if negb (blocking (lesson_status lesson)) then (inl Http400, db)
    else if lesson_start_time lesson - now <? cancel_deadline * HOUR then
      (inl Http400, db)
    else
      let new_status_val :=
        if role_is (user_role u) ROLE_STUDENT
           && profile_is (user_student_profile u) (row_student r)
        then Some CANCELLED_BY_STUDENT
        else if role_is (user_role u) ROLE_TEACHER
                && profile_is (user_teacher_profile u) (lesson_teacher lesson)
        then Some CANCELLED_BY_TEACHER
        else None in
      match new_status_val with
      | None => (inl Http403, db)
      | Some s => (inr s, Lesson_save_row (set_status r s) db)
      end
  end.

(** [LessonViewSet.approve_lesson]. [get_permissions] replaces the
    action's [IsTeacher] with [IsAuthenticated] alone, so the only check
    on the user is [lesson.teacher == user.teacher_profile] after
    [get_object()]. *)
Definition approve_lesson (u : User) (pk : nat) (db : list LessonRow)
    : (ActionError + LessonStatus) * list LessonRow :=
  match get_object u db pk with
  | None => (inl Http404, db)
  | Some r =>
    if negb (profile_is (user_teacher_profile u) (lesson_teacher (row_lesson r)))
    then (inl Http403, db)
    else
      match lesson_status (row_lesson r) with
      | VOID => (inr APPROVED, Lesson_save_row (set_status r APPROVED) db)
      | _ => (inl Http400, db)
      end
  end.

(** [Lesson.update_status_if_expired] on a row read from the table: the
    instance afterwards and the table afterwards. *)
Definition update_status_if_expired (now : Z) (r : LessonRow)
    (db : list LessonRow) : LessonRow * list LessonRow :=
  let l := row_lesson r in
  let expired :=
    match lesson_end_time l with
    | Some e => e <? now
    | None => lesson_start_time l + HOUR <? now
    end in
  if expired && blocking (lesson_status l) then
    let r' := set_status r DONE in (r', Lesson_save_row r' db)
  else (r, db).

(** The status changes these actions make: a pending lesson may be
    approved, and a pending or approved one cancelled or marked done. *)
Definition status_transition (a b : LessonStatus) : bool :=
  match a, b with
  | VOID, APPROVED => true
  | (VOID | APPROVED), (CANCELLED_BY_TEACHER | CANCELLED_BY_STUDENT | DONE) => true
  | _, _ => false
  end.

(** Row by row, [db'] is [db] with some rows' status moved along
    [status_transition]. *)
Definition rows_step (db db' : list LessonRow) : Prop :=
  Forall2 (fun x y => y = x
    \/ exists s, y = set_status x s
                 /\ status_transition (lesson_status (row_lesson x)) s = true)
    db db'.

(** The [is_paid] value of a [mark-paid] request body: a JSON boolean
    or any other JSON value; [None] when absent or [null]. *)
Inductive JsonValue := JBool (b : bool) | JOther.

(** [lesson.is_paid = b] *)
Definition set_paid (r : LessonRow) (b : bool) : LessonRow :=
  mkRow (row_pk r) (row_student r) (row_lesson r) b.

(** [LessonViewSet.mark_paid], with its [IsTeacher] permission checked
    before [get_object()]; the result is the [is_paid] of the response,
    or the error, and the table afterwards. *)
Definition mark_paid (u : User) (pk : nat) (is_paid_value : option JsonValue)
    (db : list LessonRow) : (ActionError + bool) * list LessonRow :=
  if negb (role_is (user_role u) ROLE_TEACHER) then (inl Http403, db)
  else
    match get_object u db pk with
    | None => (inl Http404, db)
    | Some r =>
      if negb (profile_is (user_teacher_profile u) (lesson_teacher (row_lesson r)))
      then (inl Http403, db)
      else
        match is_paid_value with
        | None => (inl Http400, db)
        | Some (JBool b) => (inr b, Lesson_save_row (set_paid r b) db)
        | Some JOther => (inl Http400, db)
        end
    end.

(* ================================================================== *)
(** * Properties *)

(** ** Helper lemmas *)

Lemma weekday_eqb_eq : forall a b, weekday_eqb a b = true <-> a = b.
Proof. intros [] []; simpl; split; congruence. Qed.

Lemma mem_In : forall x xs, mem x xs = true <-> In x xs.
Proof.
  intros x xs. unfold mem. rewrite existsb_exists. split.
  - intros (y & Hy & E). apply Z.eqb_eq in E. subst. exact Hy.
  - intros H. exists x. split; [exact H | apply Z.eqb_refl].
Qed.

Lemma hour_steps_bounds : forall fuel c e x,
  In x (hour_steps fuel c e) -> c <= x < e.
Proof.
  induction fuel as [| f IH]; intros c e x H; simpl in H; [contradiction |].
  destruct (c <? e) eqn:Hce; [| contradiction].
  apply Z.ltb_lt in Hce. destruct H as [<- | H]; [lia |].
  apply IH in H. unfold HOUR in H. lia.
Qed.

Lemma hours_between_bounds : forall s e x,
  In x (hours_between s e) -> s <= x < e.
Proof. intros s e x. apply hour_steps_bounds. Qed.

Lemma In_insert_by_start : forall x s l,
  In x (insert_by_start s l) <-> x = s \/ In x l.
Proof.
  intros x s l. induction l as [| y r IH]; simpl; [intuition congruence |].
  destruct (sched_start_time s <? sched_start_time y); simpl;
    [intuition congruence |].
  rewrite IH. intuition congruence.
Qed.

Lemma In_sort_by_start : forall x l, In x (sort_by_start l) <-> In x l.
Proof.
  intros x l. induction l as [| y r IH]; simpl; [intuition congruence |].
  rewrite In_insert_by_start, IH. intuition congruence.
Qed.

(** A slot comes from one hour step of one window, is free and is after
    [now]. *)
Lemma In_window_slots : forall now booked d s sl,
  In sl (window_slots now booked d s) ->
  exists cur,
    In cur (hours_between (combine d (sched_start_time s))
                          (combine d (sched_end_time s)))
    /\ mem cur booked = false /\ now < cur
    /\ sl = mkSlot cur ((cur + HOUR <? combine d (sched_end_time s))
                        && negb (mem (cur + HOUR) booked)).
Proof.
  intros now booked d s sl H. unfold window_slots in H.
  apply in_flat_map in H as (cur & Hcur & Hsl).
  destruct (mem cur booked) eqn:Hb; simpl in Hsl; [contradiction |].
  destruct (cur <=? now) eqn:Hp; simpl in Hsl; [contradiction |].
  destruct Hsl as [<- | []].
  apply Z.leb_gt in Hp. exists cur. repeat split; auto.
Qed.

(** A slot of the availability answer comes from a window of the teacher
    on that date's weekday. *)
Lemma In_availability : forall utc_offset now teacher date_from date_to
    schedules lessons d daily sl,
  In (d, daily) (TeacherAvailabilityView_get utc_offset now teacher
                   date_from date_to schedules lessons) ->
  In sl daily ->
  exists s, In s schedules /\ sched_teacher s = teacher
    /\ sched_weekday s = weekday_name (d mod 7)
    /\ In sl (window_slots now
                (booked_slots utc_offset
                   (booked_lessons teacher date_from date_to lessons)) d s).
Proof.
  intros until sl. intros H Hsl. unfold TeacherAvailabilityView_get in H.
  apply in_flat_map in H as (cd & _ & H).
  match type of H with
  | In _ (match ?x with [] => _ | _ :: _ => _ end) =>
      destruct x as [| a l] eqn:Hdaily; [contradiction |]
  end.
  destruct H as [H | []]. injection H as <- <-.
  rewrite <- Hdaily in Hsl.
  apply in_flat_map in Hsl as (s & Hs & Hw).
  apply filter_In in Hs as [Hs Hwd].
  apply In_sort_by_start, filter_In in Hs as [Hs Ht].
  apply Nat.eqb_eq in Ht. apply weekday_eqb_eq in Hwd.
  exists s. auto.
Qed.

(** ** C7 *)

(** C7: every slot offered by the availability view starts strictly
    after [now]. *)
Theorem availability_slots_after_now : forall utc_offset now teacher
    date_from date_to schedules lessons d daily sl,
  In (d, daily) (TeacherAvailabilityView_get utc_offset now teacher
                   date_from date_to schedules lessons) ->
  In sl daily ->
  now < slot_start_time sl.
Proof.
  intros until sl. intros H Hsl.
  destruct (In_availability _ _ _ _ _ _ _ _ _ _ H Hsl) as (s & _ & _ & _ & Hw).
  apply In_window_slots in Hw as (cur & _ & _ & Hnow & ->). exact Hnow.
Qed.

(** The C7 theorem at the 13:00 slot of a Monday window 13:00-16:00 with
    a lesson booked 14:00-15:00. *)
Lemma availability_slots_after_now_witness :
  In (0, [mkSlot (13 * HOUR) false; mkSlot (15 * HOUR) false])
     (TeacherAvailabilityView_get 0 0 1 0 0
        [mkSchedule 1 monday (13 * HOUR) (16 * HOUR)]
        [mkLesson 1 (14 * HOUR) (Some (15 * HOUR)) VOID])
  /\ In (mkSlot (13 * HOUR) false)
        [mkSlot (13 * HOUR) false; mkSlot (15 * HOUR) false]
  /\ 0 < 13 * HOUR.
Proof.
  assert (Hin : In (0, [mkSlot (13 * HOUR) false; mkSlot (15 * HOUR) false])
     (TeacherAvailabilityView_get 0 0 1 0 0
        [mkSchedule 1 monday (13 * HOUR) (16 * HOUR)]
        [mkLesson 1 (14 * HOUR) (Some (15 * HOUR)) VOID]))
    by (vm_compute; left; reflexivity).
  assert (Hsl : In (mkSlot (13 * HOUR) false)
                  [mkSlot (13 * HOUR) false; mkSlot (15 * HOUR) false])
    by (left; reflexivity).
  split; [exact Hin | split; [exact Hsl |]].
  exact (availability_slots_after_now 0 0 1 0 0 _ _ 0 _ _ Hin Hsl).
Defined.

(** ** C8 *)

Definition mon_9_10 : Schedule := mkSchedule 1 monday (9 * HOUR) (10 * HOUR).
Definition mon_10_11 : Schedule := mkSchedule 1 monday (10 * HOUR) (11 * HOUR).

(** C8: the [can_book_2_hours] flag of an offered slot is true exactly
    when the next hour step is still before the end of the window the slot
    comes from and is not occupied.  No other window is consulted: with
    the Monday windows 09:00-10:00 and 10:00-11:00 of teacher 1 and no
    lesson, the 09:00 slot is flagged [false] although [is_valid] accepts
    a 2-hour booking at 09:00. *)
Theorem can_book_2_hours_same_window :
  (forall utc_offset now teacher date_from date_to schedules lessons
      d daily sl,
    In (d, daily) (TeacherAvailabilityView_get utc_offset now teacher
                     date_from date_to schedules lessons) ->
    In sl daily ->
    exists s, In s schedules /\ sched_teacher s = teacher
      /\ sched_weekday s = weekday_name (d mod 7)
      /\ combine d (sched_start_time s) <= slot_start_time sl
      /\ slot_start_time sl < combine d (sched_end_time s)
      /\ (can_book_2_hours sl = true <->
          slot_start_time sl + HOUR < combine d (sched_end_time s)
          /\ ~ In (slot_start_time sl + HOUR)
                 (booked_slots utc_offset
                    (booked_lessons teacher date_from date_to lessons))))
  /\ (forall utc_offset,
        TeacherAvailabilityView_get utc_offset 0 1 0 0 [mon_9_10; mon_10_11] []
        = [(0, [mkSlot (9 * HOUR) false; mkSlot (10 * HOUR) false])])
  /\ is_valid 0 [] [mon_9_10; mon_10_11]
       (mkBookingRequest 1 (9 * HOUR) 2 true true) = Accepted.
Proof.
  split; [| split; [intros; reflexivity | reflexivity]].
  intros until sl. intros H Hsl.
  destruct (In_availability _ _ _ _ _ _ _ _ _ _ H Hsl)
    as (s & Hs & Ht & Hwd & Hw).
  apply In_window_slots in Hw as (cur & Hcur & _ & _ & ->).
  apply hours_between_bounds in Hcur.
  exists s. simpl.
  split; [exact Hs |]. split; [exact Ht |]. split; [exact Hwd |].
  split; [lia |]. split; [lia |]. split.
  - intros Hc. apply andb_true_iff in Hc as [H1 H2].
    apply Z.ltb_lt in H1. split; [exact H1 |].
    rewrite <- mem_In. destruct (mem (cur + HOUR) _); simpl in H2; congruence.
  - intros [H1 H2]. apply andb_true_iff. split; [apply Z.ltb_lt; exact H1 |].
    rewrite <- mem_In in H2. destruct (mem (cur + HOUR) _); simpl; congruence.
Qed.

(** The C8 theorem at the 09:00 slot of the two adjacent windows. *)
Lemma can_book_2_hours_same_window_witness :
  In (0, [mkSlot (9 * HOUR) false; mkSlot (10 * HOUR) false])
     (TeacherAvailabilityView_get 0 0 1 0 0 [mon_9_10; mon_10_11] [])
  /\ In (mkSlot (9 * HOUR) false) [mkSlot (9 * HOUR) false; mkSlot (10 * HOUR) false]
  /\ exists s, In s [mon_9_10; mon_10_11] /\ sched_teacher s = 1%nat
      /\ sched_weekday s = weekday_name (0 mod 7)
      /\ combine 0 (sched_start_time s) <= 9 * HOUR
      /\ 9 * HOUR < combine 0 (sched_end_time s)
      /\ (false = true <->
          9 * HOUR + HOUR < combine 0 (sched_end_time s)
          /\ ~ In (9 * HOUR + HOUR) (booked_slots 0 (booked_lessons 1 0 0 []))).
Proof.
  assert (Hin : In (0, [mkSlot (9 * HOUR) false; mkSlot (10 * HOUR) false])
     (TeacherAvailabilityView_get 0 0 1 0 0 [mon_9_10; mon_10_11] []))
    by (vm_compute; left; reflexivity).
  assert (Hsl : In (mkSlot (9 * HOUR) false)
                  [mkSlot (9 * HOUR) false; mkSlot (10 * HOUR) false])
    by (left; reflexivity).
  split; [exact Hin | split; [exact Hsl |]].
  exact (proj1 can_book_2_hours_same_window 0 0 1%nat 0 0 [mon_9_10; mon_10_11] []
           0 _ _ Hin Hsl).
Defined.

(** ** C10 *)

Lemma booked_lessons_skip : forall teacher date_from date_to l lessons,
  date_of (lesson_start_time l) < date_from
  \/ date_to < date_of (lesson_start_time l) ->
  booked_lessons teacher date_from date_to (l :: lessons)
  = booked_lessons teacher date_from date_to lessons.
Proof.
  intros teacher date_from date_to l lessons Hout.
  unfold booked_lessons. simpl.
  destruct Hout as [H | H]; apply Z.leb_gt in H; rewrite H;
    rewrite ?andb_false_r; reflexivity.
Qed.

(** Sunday 23:00 to Monday 01:00, teacher 1, pending. *)
Definition sunday_night_lesson : Lesson :=
  mkLesson 1 (6 * DAY + 23 * HOUR) (Some (7 * DAY + 1 * HOUR)) VOID.

Definition mon_0_2 : Schedule := mkSchedule 1 monday 0 (2 * HOUR).

(** C10: a blocking lesson whose start date lies outside
    [date_from, date_to] marks no hour as occupied and does not change the
    availability answer.  A lesson from Sunday 23:00 to Monday 01:00 leaves
    Monday 00:00 on offer for the range Monday..Monday although that hour
    lies inside the lesson. *)
Theorem availability_ignores_lessons_starting_outside_range :
  (forall utc_offset now teacher date_from date_to schedules l lessons,
    date_of (lesson_start_time l) < date_from
    \/ date_to < date_of (lesson_start_time l) ->
    booked_slots utc_offset (booked_lessons teacher date_from date_to (l :: lessons))
    = booked_slots utc_offset (booked_lessons teacher date_from date_to lessons)
    /\ TeacherAvailabilityView_get utc_offset now teacher date_from date_to
         schedules (l :: lessons)
       = TeacherAvailabilityView_get utc_offset now teacher date_from date_to
           schedules lessons)
  /\ (forall utc_offset,
        TeacherAvailabilityView_get utc_offset 0 1 7 7 [mon_0_2]
          [sunday_night_lesson]
        = [(7, [mkSlot (7 * DAY) true; mkSlot (7 * DAY + HOUR) false])])
  /\ lesson_start_time sunday_night_lesson < 7 * DAY
  /\ Some (7 * DAY + HOUR) = lesson_end_time sunday_night_lesson.
Proof.
  split; [| split; [intros; reflexivity | split; reflexivity]].
  intros until lessons. intros Hout.
  rewrite (booked_lessons_skip teacher date_from date_to l lessons Hout).
  split; [reflexivity |].
  unfold TeacherAvailabilityView_get.
  rewrite (booked_lessons_skip teacher date_from date_to l lessons Hout).
  reflexivity.
Qed.

(** The C10 theorem at the Sunday-night lesson and the range Monday..Monday. *)
Lemma availability_ignores_lessons_starting_outside_range_witness :
  (date_of (lesson_start_time sunday_night_lesson) < 7
   \/ 7 < date_of (lesson_start_time sunday_night_lesson))
  /\ TeacherAvailabilityView_get 0 0 1 7 7 [mon_0_2] [sunday_night_lesson]
     = TeacherAvailabilityView_get 0 0 1 7 7 [mon_0_2] [].
Proof.
  assert (Hout : date_of (lesson_start_time sunday_night_lesson) < 7
                 \/ 7 < date_of (lesson_start_time sunday_night_lesson))
    by (left; vm_compute; reflexivity).
  split; [exact Hout |].
  exact (proj2 (proj1 availability_ignores_lessons_starting_outside_range
                  0 0 1%nat 7 7 [mon_0_2] sunday_night_lesson [] Hout)).
Defined.

(** ** C1 *)

Definition mon_9_12 : Schedule := mkSchedule 1 monday (9 * HOUR) (12 * HOUR).

(** Teacher 1, Monday 10:00, one hour, subject and category taught. *)
Definition booking_10am : BookingRequest := mkBookingRequest 1 (10 * HOUR) 1 true true.

(** C1 (evaluation of the code): no create request changes the lesson
    store.  [Lesson.objects.create] raises [TypeError] on the
    [duration_hours] keyword, and even without it [Lesson.save] skips
    [super().save()] for the lesson built from an accepted request, whose
    [end_time] is set.  The Monday 10:00 request passes every check. *)
Theorem create_booking_stores_nothing :
  (forall now store schedules req,
     snd (create_booking now store schedules req) = store)
  /\ is_valid 0 [] [mon_9_12] booking_10am = Accepted
  /\ create_booking 0 [] [mon_9_12] booking_10am = (inl TypeError, [])
  /\ Lesson_save (mkLesson 1 (10 * HOUR) (Some (11 * HOUR)) VOID) [] = [].
Proof.
  split; [| repeat split; reflexivity].
  intros now store schedules req. unfold create_booking.
  destruct (is_valid now store schedules req); reflexivity.
Qed.

(** ** C2 *)

(** Teacher 1, pending, Monday 10:00, no [end_time]. *)
Definition null_end_lesson : Lesson := mkLesson 1 (10 * HOUR) None VOID.

(** C2 (evaluation of the code): a lesson without [end_time] never makes
    the overlap query match, so it never causes [SlotTaken]; a Monday
    10:00 one-hour request over the null-end lesson at Monday 10:00 is
    accepted, while the availability view counts that hour as occupied. *)
Theorem null_end_lesson_never_overlaps :
  (forall l lessons teacher start_time end_time,
     lesson_end_time l = None ->
     overlapping_lessons_exist (l :: lessons) teacher start_time end_time
     = overlapping_lessons_exist lessons teacher start_time end_time)
  /\ is_valid 0 [null_end_lesson] [mon_9_12] booking_10am = Accepted
  /\ mem (10 * HOUR) (booked_slots 0 (booked_lessons 1 0 0 [null_end_lesson]))
     = true.
Proof.
  split; [| split; reflexivity].
  intros l lessons teacher start_time end_time Hnull.
  unfold overlapping_lessons_exist. simpl. rewrite Hnull, andb_false_r.
  reflexivity.
Qed.

(** The C2 theorem at the null-end lesson. *)
Lemma null_end_lesson_never_overlaps_witness :
  lesson_end_time null_end_lesson = None
  /\ overlapping_lessons_exist [null_end_lesson] 1 (10 * HOUR) (11 * HOUR) = false.
Proof.
  split; [reflexivity |].
  rewrite (proj1 null_end_lesson_never_overlaps null_end_lesson [] 1%nat
             (10 * HOUR) (11 * HOUR) eq_refl).
  reflexivity.
Defined.

(** ** C6 *)

(** C6 (counterexample): a request starting exactly at [now] (Monday
    10:00, on the hour) is not rejected as past; it is accepted. *)
Lemma start_at_now_not_rejected :
  ~ (forall now lessons schedules req,
       req_start_time req <= now ->
       is_valid now lessons schedules req = Rejected PastStart).
Proof.
  intros H.
  specialize (H (10 * HOUR) [] [mon_9_12] booking_10am (Z.le_refl _)).
  vm_compute in H. discriminate H.
Qed.

(** C6 (as amended): [is_valid] rejects with [PastStart] exactly when the
    start is strictly earlier than [now]; a start equal to [now] passes
    this check. *)
Theorem past_start_iff_before_now : forall now lessons schedules req,
  is_valid now lessons schedules req = Rejected PastStart
  <-> req_start_time req < now.
Proof.
  intros now lessons schedules req. unfold is_valid, validate_start_time.
  destruct (req_start_time req <? now) eqn:Hlt.
  - apply Z.ltb_lt in Hlt. tauto.
  - apply Z.ltb_ge in Hlt. split; [| lia]. intros H. exfalso.
    unfold validate_duration_hours, LessonDetailSerializer_validate,
      schedule_coverage in H.
    repeat match type of H with
    | context [if ?b then _ else _] => destruct b
    end; discriminate.
Qed.

(** ** C5 *)

(** C5: a request that passes the checks run before the overlap query
    (start not in the past and on the hour, duration 1 or 2, subject and
    category taught) and whose interval meets a blocking lesson of the
    same teacher with an [end_time] is rejected with [SlotTaken], whatever
    the teacher's schedule. *)
Theorem overlap_rejected_before_coverage : forall now lessons schedules req l e,
  now <= req_start_time req ->
  req_start_time req mod HOUR = 0 ->
  (req_duration_hours req = 1 \/ req_duration_hours req = 2) ->
  req_teaches_subject req = true ->
  req_teaches_category req = true ->
  In l lessons ->
  lesson_teacher l = req_teacher req ->
  blocking (lesson_status l) = true ->
  lesson_end_time l = Some e ->
  lesson_start_time l < req_start_time req + req_duration_hours req * HOUR ->
  req_start_time req < e ->
  is_valid now lessons schedules req = Rejected SlotTaken.
Proof.
  intros now lessons schedules req l e Hnow Hal Hdur Hsub Hcat Hin Ht Hb He Hs1 Hs2.
  unfold is_valid, validate_start_time, validate_duration_hours,
    LessonDetailSerializer_validate.
  replace (req_start_time req <? now) with false
    by (symmetry; apply Z.ltb_ge; exact Hnow).
  rewrite Hal. simpl.
  replace ((req_duration_hours req =? 1) || (req_duration_hours req =? 2)) with true
    by (destruct Hdur as [-> | ->]; reflexivity).
  rewrite Hsub, Hcat. simpl.
  replace (overlapping_lessons_exist lessons (req_teacher req) (req_start_time req)
             (req_start_time req + req_duration_hours req * HOUR)) with true.
  { reflexivity. }
  symmetry. unfold overlapping_lessons_exist. apply existsb_exists.
  exists l. split; [exact Hin |].
  rewrite Ht, Nat.eqb_refl, Hb, He. simpl.
  apply andb_true_iff. split; apply Z.ltb_lt; assumption.
Qed.

Definition approved_10_11 : Lesson := mkLesson 1 (10 * HOUR) (Some (11 * HOUR)) APPROVED.

(** The C5 theorem at a Monday 10:00 request over an approved 10:00-11:00
    lesson, with no schedule at all. *)
Lemma overlap_rejected_before_coverage_witness :
  is_valid 0 [approved_10_11] [] booking_10am = Rejected SlotTaken.
Proof.
  apply (overlap_rejected_before_coverage 0 [approved_10_11] [] booking_10am
           approved_10_11 (11 * HOUR));
    simpl; first [reflexivity | lia | left; reflexivity].
Defined.

(** ** Coverage lemmas *)

Lemma schedule_exists_iff : forall schedules teacher day p,
  schedule_exists schedules teacher day p = true
  <-> exists s, In s schedules /\ sched_teacher s = teacher
       /\ sched_weekday s = day /\ p s = true.
Proof.
  intros schedules teacher day p. unfold schedule_exists.
  rewrite existsb_exists. split.
  - intros (s & Hin & H). apply andb_true_iff in H as [H Hp].
    apply andb_true_iff in H as [Ht Hd].
    apply Nat.eqb_eq in Ht. apply weekday_eqb_eq in Hd. eauto.
  - intros (s & Hin & Ht & Hd & Hp). exists s. split; [exact Hin |].
    rewrite Ht, Hd, Nat.eqb_refl, Hp. destruct day; reflexivity.
Qed.

Lemma if_outside_none : forall b : bool,
  (if b then None else Some OutsideAvailability) = None <-> b = true.
Proof. intros []; split; congruence. Qed.

Lemma if_outside_some : forall b : bool,
  (if b then None else Some OutsideAvailability) <> None ->
  (if b then None else Some OutsideAvailability) = Some OutsideAvailability.
Proof. intros [] H; [congruence | reflexivity]. Qed.

(** A two-hour lesson that does not cross midnight: its second hour starts
    one hour after its start, on the same day. *)
Lemma time_of_next_hour : forall t,
  time_of t < time_of (t + 2 * HOUR) -> time_of (t + HOUR) = time_of t + HOUR.
Proof.
  intros t H. unfold time_of, HOUR, DAY in *.
  rewrite <- (Z.add_mod_idemp_l t) in H by lia.
  rewrite <- (Z.add_mod_idemp_l t) by lia.
  pose proof (Z.mod_pos_bound t 86400 ltac:(lia)) as Hb.
  set (r := t mod 86400) in *.
  destruct (Z_lt_ge_dec (r + 2 * 3600) 86400) as [Hlt | Hge].
  - apply Z.mod_small. lia.
  - exfalso.
    rewrite <- (Z.mod_unique (r + 2 * 3600) 86400 1 (r + 2 * 3600 - 86400))
      in H by lia.
    lia.
Qed.

(** ** C3 *)

Definition mon_22_2359 : Schedule := mkSchedule 1 monday (22 * HOUR) T_23_59_59.
Definition tue_0_2 : Schedule := mkSchedule 1 tuesday T_00_00_00 (2 * HOUR).
(** Teacher 1, Monday 23:00, two hours. *)
Definition monday_23_2h : BookingRequest := mkBookingRequest 1 (23 * HOUR) 2 true true.

(** C3: for a request crossing midnight, the coverage check passes exactly
    when the teacher has a window on the start's weekday starting no later
    than the start time and reaching 23:59:59, and a window on the next
    weekday starting at 00:00:00 and ending no earlier than the end time;
    otherwise it rejects with [OutsideAvailability].  (Window times are
    times of day, at most 23:59:59.)  With the Monday window
    22:00-23:59:59 and the Tuesday window 00:00:00-02:00 a Monday 23:00
    two-hour request is accepted; with the Monday window alone it is
    rejected with [OutsideAvailability]. *)
Theorem midnight_crossing_coverage :
  (forall schedules teacher start_time duration_hours,
     (forall s, In s schedules -> sched_end_time s <= T_23_59_59) ->
     time_of (start_time + duration_hours * HOUR) <= time_of start_time ->
     (schedule_coverage schedules teacher start_time duration_hours = None <->
        (exists s, In s schedules /\ sched_teacher s = teacher
           /\ sched_weekday s = weekday_name (weekday_index start_time)
           /\ sched_start_time s <= time_of start_time
           /\ T_23_59_59 <= sched_end_time s)
        /\ (exists s, In s schedules /\ sched_teacher s = teacher
           /\ sched_weekday s = weekday_name ((weekday_index start_time + 1) mod 7)
           /\ sched_start_time s = T_00_00_00
           /\ time_of (start_time + duration_hours * HOUR) <= sched_end_time s))
     /\ (schedule_coverage schedules teacher start_time duration_hours <> None ->
         schedule_coverage schedules teacher start_time duration_hours
         = Some OutsideAvailability))
  /\ is_valid 0 [] [mon_22_2359; tue_0_2] monday_23_2h = Accepted
  /\ is_valid 0 [] [mon_22_2359] monday_23_2h = Rejected OutsideAvailability.
Proof.
  split; [| split; reflexivity].
  intros schedules teacher start_time duration_hours Hrange Hcross.
  unfold schedule_coverage. cbv zeta.
  replace (time_of (start_time + duration_hours * HOUR) <=? time_of start_time)
    with true by (symmetry; apply Z.leb_le; exact Hcross).
  split; [| apply if_outside_some].
  rewrite if_outside_none, andb_true_iff, !schedule_exists_iff.
  split.
  - intros [(s1 & Hin1 & Ht1 & Hd1 & Hp1) (s2 & Hin2 & Ht2 & Hd2 & Hp2)].
    apply andb_true_iff in Hp1 as [Ha1 Hb1]. apply andb_true_iff in Hp2 as [Ha2 Hb2].
    apply Z.leb_le in Ha1. apply Z.eqb_eq in Hb1.
    apply Z.eqb_eq in Ha2. apply Z.leb_le in Hb2.
    split; [exists s1 | exists s2]; repeat split; auto; lia.
  - intros [(s1 & Hin1 & Ht1 & Hd1 & Ha1 & Hb1) (s2 & Hin2 & Ht2 & Hd2 & Ha2 & Hb2)].
    specialize (Hrange s1 Hin1).
    split; [exists s1 | exists s2]; repeat split; auto.
    + apply andb_true_iff. split; [apply Z.leb_le | apply Z.eqb_eq]; lia.
    + apply andb_true_iff. split; [apply Z.eqb_eq | apply Z.leb_le]; lia.
Qed.

(** The C3 theorem at the Monday 23:00 two-hour request with both windows. *)
Lemma midnight_crossing_coverage_witness :
  (forall s, In s [mon_22_2359; tue_0_2] -> sched_end_time s <= T_23_59_59)
  /\ time_of (23 * HOUR + 2 * HOUR) <= time_of (23 * HOUR)
  /\ schedule_coverage [mon_22_2359; tue_0_2] 1 (23 * HOUR) 2 = None.
Proof.
  assert (Hrange : forall s, In s [mon_22_2359; tue_0_2] ->
                             sched_end_time s <= T_23_59_59)
    by (intros s [<- | [<- | []]]; vm_compute; discriminate).
  assert (Hcross : time_of (23 * HOUR + 2 * HOUR) <= time_of (23 * HOUR))
    by (vm_compute; discriminate).
  split; [exact Hrange | split; [exact Hcross |]].
  apply (proj2 (proj1 (proj1 midnight_crossing_coverage
                  [mon_22_2359; tue_0_2] 1%nat (23 * HOUR) 2 Hrange Hcross))).
  split.
  - exists mon_22_2359. vm_compute. repeat split; (left; reflexivity) || discriminate.
  - exists tue_0_2. vm_compute. repeat split; (right; left; reflexivity) || discriminate.
Defined.

(** ** C4 *)

(** Teacher 1, Monday 09:00, two hours. *)
Definition monday_9_2h : BookingRequest := mkBookingRequest 1 (9 * HOUR) 2 true true.

(** C4: for a two-hour request that does not cross midnight and that no
    single window of its weekday covers, the coverage check passes exactly
    when one window of that weekday covers the first hour and one (the
    same or another) covers the second hour; otherwise it rejects with
    [OutsideAvailability].  With the Monday windows 09:00-10:00 and
    10:00-11:00 a Monday 09:00 two-hour request is accepted; with the
    first window alone it is rejected with [OutsideAvailability]. *)
Theorem two_hour_fallback_coverage :
  (forall schedules teacher start_time,
     time_of start_time < time_of (start_time + 2 * HOUR) ->
     ~ (exists s, In s schedules /\ sched_teacher s = teacher
          /\ sched_weekday s = weekday_name (weekday_index start_time)
          /\ sched_start_time s <= time_of start_time
          /\ time_of (start_time + 2 * HOUR) <= sched_end_time s) ->
     (schedule_coverage schedules teacher start_time 2 = None <->
        (exists s, In s schedules /\ sched_teacher s = teacher
           /\ sched_weekday s = weekday_name (weekday_index start_time)
           /\ sched_start_time s <= time_of start_time
           /\ time_of start_time + HOUR <= sched_end_time s)
        /\ (exists s, In s schedules /\ sched_teacher s = teacher
           /\ sched_weekday s = weekday_name (weekday_index start_time)
           /\ sched_start_time s <= time_of start_time + HOUR
           /\ time_of (start_time + 2 * HOUR) <= sched_end_time s))
     /\ (schedule_coverage schedules teacher start_time 2 <> None ->
         schedule_coverage schedules teacher start_time 2 = Some OutsideAvailability))
  /\ is_valid 0 [] [mon_9_10; mon_10_11] monday_9_2h = Accepted
  /\ is_valid 0 [] [mon_9_10] monday_9_2h = Rejected OutsideAvailability.
Proof.
  split; [| split; reflexivity].
  intros schedules teacher start_time Hnc Hnone.
  pose proof (time_of_next_hour start_time Hnc) as Hmid.
  unfold schedule_coverage. cbv zeta.
  replace (time_of (start_time + 2 * HOUR) <=? time_of start_time)
    with false by (symmetry; apply Z.leb_gt; exact Hnc).
  replace (schedule_exists schedules teacher (weekday_name (weekday_index start_time))
             (fun s => (sched_start_time s <=? time_of start_time)
                       && (time_of (start_time + 2 * HOUR) <=? sched_end_time s)))
    with false.
  2:{ symmetry. apply not_true_iff_false. rewrite schedule_exists_iff.
      intros (s & Hin & Ht & Hd & Hp). apply Hnone.
      apply andb_true_iff in Hp as [Ha Hb].
      apply Z.leb_le in Ha. apply Z.leb_le in Hb.
      exists s. auto. }
  simpl Z.eqb. cbv iota.
  split; [| apply if_outside_some].
  rewrite if_outside_none, andb_true_iff, !schedule_exists_iff, Hmid.
  split.
  - intros [(s1 & Hin1 & Ht1 & Hd1 & Hp1) (s2 & Hin2 & Ht2 & Hd2 & Hp2)].
    apply andb_true_iff in Hp1 as [Ha1 Hb1]. apply andb_true_iff in Hp2 as [Ha2 Hb2].
    apply Z.leb_le in Ha1, Hb1, Ha2, Hb2.
    split; [exists s1 | exists s2]; repeat split; auto.
  - intros [(s1 & Hin1 & Ht1 & Hd1 & Ha1 & Hb1) (s2 & Hin2 & Ht2 & Hd2 & Ha2 & Hb2)].
    split; [exists s1 | exists s2]; repeat split; auto;
      apply andb_true_iff; split; apply Z.leb_le; assumption.
Qed.

(** The C4 theorem at the Monday 09:00 two-hour request with both windows. *)
Lemma two_hour_fallback_coverage_witness :
  time_of (9 * HOUR) < time_of (9 * HOUR + 2 * HOUR)
  /\ ~ (exists s, In s [mon_9_10; mon_10_11] /\ sched_teacher s = 1%nat
          /\ sched_weekday s = weekday_name (weekday_index (9 * HOUR))
          /\ sched_start_time s <= time_of (9 * HOUR)
          /\ time_of (9 * HOUR + 2 * HOUR) <= sched_end_time s)
  /\ schedule_coverage [mon_9_10; mon_10_11] 1 (9 * HOUR) 2 = None.
Proof.
  assert (Hnc : time_of (9 * HOUR) < time_of (9 * HOUR + 2 * HOUR))
    by (vm_compute; reflexivity).
  assert (Hnone : ~ (exists s, In s [mon_9_10; mon_10_11] /\ sched_teacher s = 1%nat
          /\ sched_weekday s = weekday_name (weekday_index (9 * HOUR))
          /\ sched_start_time s <= time_of (9 * HOUR)
          /\ time_of (9 * HOUR + 2 * HOUR) <= sched_end_time s)).
  { intros (s & [<- | [<- | []]] & _ & _ & Ha & Hb); revert Ha Hb; vm_compute;
      intros Ha Hb; first [apply Ha; reflexivity | apply Hb; reflexivity]. }
  split; [exact Hnc | split; [exact Hnone |]].
  apply (proj2 (proj1 (proj1 two_hour_fallback_coverage
                  [mon_9_10; mon_10_11] 1%nat (9 * HOUR) Hnc Hnone))).
  split.
  - exists mon_9_10. vm_compute. repeat split; (left; reflexivity) || discriminate.
  - exists mon_10_11. vm_compute. repeat split; (right; left; reflexivity) || discriminate.
Defined.

(** ** C9 *)

Lemma ScheduleSerializer_validate_ok : forall sub s e,
  ScheduleSerializer_validate sub = None ->
  sub_start_time sub = Some s -> sub_end_time sub = Some e -> s < e.
Proof.
  intros sub s e H Hs He. unfold ScheduleSerializer_validate in H.
  rewrite Hs, He in H. destruct (e <=? s) eqn:E; [discriminate |].
  apply Z.leb_gt in E. exact E.
Qed.

Lemma required_fields_error : forall partial sub err,
  required_fields partial sub = Some err -> err = ValidationError.
Proof.
  intros [] sub err H; simpl in H; [discriminate |].
  destruct (sub_weekday sub), (sub_start_time sub), (sub_end_time sub);
    congruence.
Qed.

(** C9 (as amended, for the schedule API): every create, update or
    partial update accepted by the schedule endpoint keeps all stored windows with [start_time < end_time], and a
    submission with [start_time >= end_time] is refused: with a validation
    error, or with 404 when the row to update is not one of the teacher's. *)
Theorem schedule_windows_well_formed :
  (forall teacher act sub st st',
     windows_well_formed st ->
     schedule_request teacher act sub st = inr st' ->
     windows_well_formed st')
  /\ (forall teacher act sub st s e,
        sub_start_time sub = Some s -> sub_end_time sub = Some e -> e <= s ->
        schedule_request teacher act sub st = inl ValidationError
        \/ (schedule_request teacher act sub st = inl NotFound
            /\ exists pk, action_pk act = Some pk /\ own_row teacher st pk = false)).
Proof.
  split.
  - intros teacher act sub st st' Hwf H.
    unfold schedule_request in H. cbv zeta in H.
    destruct (action_pk act) as [pk |] eqn:Hpk;
      [destruct (own_row teacher st pk); [| discriminate] |].
    all: destruct (required_fields (action_partial act) sub); [discriminate |].
    all: destruct (ScheduleSerializer_validate sub) eqn:Hv; [discriminate |].
    all: unfold ScheduleViewSet_perform_create in H.
    all: destruct (sub_start_time sub) as [s |] eqn:Hs; [| discriminate].
    all: destruct (sub_end_time sub) as [e |] eqn:He; [| discriminate].
    all: destruct (sub_weekday sub) as [wd |]; [| discriminate].
    all: destruct (existsb _ (rows st)); [discriminate |].
    all: injection H as <-.
    all: pose proof (ScheduleSerializer_validate_ok sub s e Hv Hs He) as Hse.
    all: intros pk' r Hin; unfold save_schedule in Hin; rewrite Hpk in Hin.
    + apply in_map_iff in Hin as ([pk0 r0] & Heq & Hin0). simpl in Heq.
      destruct (Nat.eqb pk0 pk).
      * injection Heq as <- <-. exact Hse.
      * injection Heq as -> ->. exact (Hwf _ _ Hin0).
    + destruct Hin as [Heq | Hin].
      * injection Heq as <- <-. exact Hse.
      * exact (Hwf _ _ Hin).
  - intros teacher act sub st s e Hs He Hle.
    unfold schedule_request. cbv zeta.
    destruct (action_pk act) as [pk |] eqn:Hpk.
    1: destruct (own_row teacher st pk) eqn:Hown;
         [| right; split; [reflexivity | exists pk; auto]].
    all: left; destruct (required_fields (action_partial act) sub) eqn:Hr;
      [apply required_fields_error in Hr; congruence |].
    all: unfold ScheduleSerializer_validate; rewrite Hs, He.
    all: replace (e <=? s) with true by (symmetry; apply Z.leb_le; exact Hle).
    all: reflexivity.
Qed.

(** C9 (counterexample): the admin's add form stores a Monday window
    10:00-09:00 in an empty table, so not every create keeps
    [start_time < end_time] for all stored windows. *)
Lemma admin_stores_inverted_window :
  ~ (forall pk row st st',
       windows_well_formed st ->
       ScheduleAdmin_save pk row st = inr st' ->
       windows_well_formed st').
Proof.
  intros H.
  assert (Hwf : windows_well_formed (mkStore [] 0)) by (intros pk s []).
  specialize (H None (mkSchedule 1 monday (10 * HOUR) (9 * HOUR)) (mkStore [] 0)
                (mkStore [(0%nat, mkSchedule 1 monday (10 * HOUR) (9 * HOUR))] 1)
                Hwf eq_refl 0%nat (mkSchedule 1 monday (10 * HOUR) (9 * HOUR))
                (or_introl eq_refl)).
  simpl in H. unfold HOUR in H. lia.
Qed.

(** The C9 theorem at the creation of a Monday window 09:00-10:00 in an
    empty store. *)
Lemma schedule_windows_well_formed_witness :
  windows_well_formed (mkStore [] 0)
  /\ schedule_request 1 Create (mkSubmission (Some monday) (Some (9 * HOUR)) (Some (10 * HOUR)))
       (mkStore [] 0)
     = inr (mkStore [(0%nat, mon_9_10)] 1)
  /\ windows_well_formed (mkStore [(0%nat, mon_9_10)] 1).
Proof.
  assert (Hwf : windows_well_formed (mkStore [] 0)) by (intros pk s []).
  assert (Hreq : schedule_request 1 Create
                   (mkSubmission (Some monday) (Some (9 * HOUR)) (Some (10 * HOUR)))
                   (mkStore [] 0)
                 = inr (mkStore [(0%nat, mon_9_10)] 1))
    by (vm_compute; reflexivity).
  split; [exact Hwf | split; [exact Hreq |]].
  exact (proj1 schedule_windows_well_formed 1%nat Create _ _ _ Hwf Hreq).
Defined.

(* ================================================================== *)
(** * Further properties of the code *)

(** ** Lesson status actions *)

Lemma get_object_in : forall u db pk r,
  get_object u db pk = Some r -> In r db /\ row_pk r = pk /\ lesson_visible u r = true.
Proof.
  intros u db pk r H. unfold get_object in H.
  apply find_some in H as [Hin Hp]. apply andb_true_iff in Hp as [Hpk Hv].
  apply Nat.eqb_eq in Hpk. auto.
Qed.

Lemma NoDup_row_pk_eq : forall db x r,
  NoDup (map row_pk db) -> In x db -> In r db -> row_pk x = row_pk r -> x = r.
Proof.
  induction db as [| a db IH]; intros x r Hnd Hx Hr Heq; [contradiction |].
  inversion Hnd as [| ? ? Hnotin Hnd']; subst.
  destruct Hx as [<- | Hx], Hr as [<- | Hr]; auto.
  - exfalso. apply Hnotin. rewrite Heq. apply in_map. exact Hr.
  - exfalso. apply Hnotin. rewrite <- Heq. apply in_map. exact Hx.
Qed.

Lemma rows_step_refl : forall db, rows_step db db.
Proof. induction db; constructor; auto. Qed.

Lemma Lesson_save_row_step : forall db r s,
  NoDup (map row_pk db) -> In r db ->
  status_transition (lesson_status (row_lesson r)) s = true ->
  rows_step db (Lesson_save_row (set_status r s) db).
Proof.
  intros db r s Hnd Hr Ht. unfold Lesson_save_row. simpl.
  destruct (lesson_end_time (row_lesson r)); [apply rows_step_refl |].
  unfold rows_step.
  assert (Hall : forall x, In x db ->
    (if Nat.eqb (row_pk x) (row_pk r) then set_status r s else x) = x
    \/ exists s', (if Nat.eqb (row_pk x) (row_pk r) then set_status r s else x)
                  = set_status x s'
                  /\ status_transition (lesson_status (row_lesson x)) s' = true).
  { intros x Hx. destruct (Nat.eqb (row_pk x) (row_pk r)) eqn:E; [| left; reflexivity].
    apply Nat.eqb_eq in E. rewrite (NoDup_row_pk_eq db x r Hnd Hx Hr E).
    right. exists s. auto. }
  clear Hnd Hr. induction db as [| a db IH]; simpl; constructor.
  - apply Hall. left. reflexivity.
  - apply IH. intros x Hx. apply Hall. right. exact Hx.
Qed.

Lemma cancel_lesson_step : forall d now u pk db,
  NoDup (map row_pk db) -> rows_step db (snd (cancel_lesson d now u pk db)).
Proof.
  intros d now u pk db Hnd. unfold cancel_lesson.
  destruct (get_object u db pk) as [r |] eqn:Hg; [| apply rows_step_refl].
  apply get_object_in in Hg as (Hr & _ & _).
  destruct (blocking (lesson_status (row_lesson r))) eqn:Hb; simpl;
    [| apply rows_step_refl].
  destruct (_ <? _); [apply rows_step_refl |].
  match goal with |- context [match ?x with Some _ => _ | None => _ end] =>
    destruct x as [s |] eqn:Hs end; [| apply rows_step_refl].
  simpl. apply Lesson_save_row_step; auto.
  destruct (role_is _ _ && _); [injection Hs as <- | destruct (role_is _ _ && _);
    [injection Hs as <- | discriminate]];
  destruct (lesson_status (row_lesson r)); simpl in Hb |- *; congruence.
Qed.

Lemma approve_lesson_step : forall u pk db,
  NoDup (map row_pk db) -> rows_step db (snd (approve_lesson u pk db)).
Proof.
  intros u pk db Hnd. unfold approve_lesson.
  destruct (get_object u db pk) as [r |] eqn:Hg; [| apply rows_step_refl].
  apply get_object_in in Hg as (Hr & _ & _).
  destruct (negb _); [apply rows_step_refl |].
  destruct (lesson_status (row_lesson r)) eqn:Hs; try apply rows_step_refl.
  apply Lesson_save_row_step; auto. rewrite Hs. reflexivity.
Qed.

Lemma update_status_if_expired_step : forall now r db,
  NoDup (map row_pk db) -> In r db ->
  rows_step db (snd (update_status_if_expired now r db)).
Proof.
  intros now r db Hnd Hr. unfold update_status_if_expired.
  destruct (_ && blocking _) eqn:Hb; [| apply rows_step_refl].
  apply andb_true_iff in Hb as [_ Hb].
  apply Lesson_save_row_step; [assumption | assumption |].
  destruct (lesson_status (row_lesson r)); simpl in Hb |- *; congruence.
Qed.

(** Extra: lesson status actions.  With primary keys unique, cancelling,
    approving and expiring a lesson change the lesson table only by moving
    rows' statuses along pending -> approved and pending/approved ->
    cancelled/done; every other column is kept, and cancelled or done rows
    never change. *)
Theorem lesson_actions_status_machine : forall cancel_deadline now u pk r db,
  NoDup (map row_pk db) ->
  In r db ->
  rows_step db (snd (cancel_lesson cancel_deadline now u pk db))
  /\ rows_step db (snd (approve_lesson u pk db))
  /\ rows_step db (snd (update_status_if_expired now r db)).
Proof.
  intros cancel_deadline now u pk r db Hnd Hr.
  split; [apply cancel_lesson_step; exact Hnd |].
  split; [apply approve_lesson_step; exact Hnd |].
  apply update_status_if_expired_step; assumption.
Qed.

Definition row_1 : LessonRow := mkRow 1 7 (mkLesson 1 (10 * HOUR) None VOID) false.
Definition row_2 : LessonRow := mkRow 2 7 (mkLesson 1 (12 * HOUR) None CANCELLED_BY_STUDENT) false.
Definition teacher_1 : User := mkUser (Some ROLE_TEACHER) (Some 1%nat) None.

(** The status-machine theorem on a two-row table, approving row 1. *)
Lemma lesson_actions_status_machine_witness :
  NoDup (map row_pk [row_1; row_2]) /\ In row_1 [row_1; row_2]
  /\ rows_step [row_1; row_2] (snd (approve_lesson teacher_1 1 [row_1; row_2])).
Proof.
  assert (Hnd : NoDup (map row_pk [row_1; row_2]))
    by (simpl; constructor; [simpl; intuition discriminate |
                             constructor; [intros [] | constructor]]).
  assert (Hr : In row_1 [row_1; row_2]) by (left; reflexivity).
  split; [exact Hnd | split; [exact Hr |]].
  exact (proj1 (proj2 (lesson_actions_status_machine 3 0 teacher_1 1 row_1 _ Hnd Hr))).
Defined.

(** Extra: [cancel_lesson] succeeds only on a pending or approved lesson
    the user can see, at least [cancel_deadline] hours before its start;
    the new status is [CANCELLED_BY_STUDENT] when a student cancels their
    own lesson and [CANCELLED_BY_TEACHER] when a teacher cancels a lesson
    they teach. *)
Theorem cancel_lesson_success : forall cancel_deadline now u pk db s,
  fst (cancel_lesson cancel_deadline now u pk db) = inr s ->
  exists r, get_object u db pk = Some r
    /\ blocking (lesson_status (row_lesson r)) = true
    /\ cancel_deadline * HOUR <= lesson_start_time (row_lesson r) - now
    /\ ((s = CANCELLED_BY_STUDENT /\ user_role u = Some ROLE_STUDENT
         /\ user_student_profile u = Some (row_student r))
        \/ (s = CANCELLED_BY_TEACHER /\ user_role u = Some ROLE_TEACHER
            /\ user_teacher_profile u = Some (lesson_teacher (row_lesson r)))).
Proof.
  intros cancel_deadline now u pk db s H. unfold cancel_lesson in H.
  destruct (get_object u db pk) as [r |] eqn:Hg; [| discriminate].
  exists r. split; [reflexivity |].
  destruct (blocking (lesson_status (row_lesson r))) eqn:Hb; [| discriminate].
  simpl in H.
  destruct (_ - now <? _) eqn:Hd; [discriminate |]. apply Z.ltb_ge in Hd.
  split; [reflexivity | split; [exact Hd |]].
  destruct (role_is (user_role u) ROLE_STUDENT
            && profile_is (user_student_profile u) (row_student r)) eqn:Hst.
  - simpl in H. injection H as <-. left. split; [reflexivity |].
    apply andb_true_iff in Hst as [Hr Hp].
    destruct (user_role u) as [[] |]; try discriminate.
    destruct (user_student_profile u) as [x |]; [| discriminate].
    apply Nat.eqb_eq in Hp. subst. auto.
  - destruct (role_is (user_role u) ROLE_TEACHER
              && profile_is (user_teacher_profile u) (lesson_teacher (row_lesson r)))
      eqn:Hte; [| discriminate].
    simpl in H. injection H as <-. right. split; [reflexivity |].
    apply andb_true_iff in Hte as [Hr Hp].
    destruct (user_role u) as [[] |]; try discriminate.
    destruct (user_teacher_profile u) as [x |]; [| discriminate].
    apply Nat.eqb_eq in Hp. subst. auto.
Qed.

(** [row_1] is pending, teacher 1, Monday 10:00 (no [end_time]). *)
Lemma cancel_lesson_success_witness :
  fst (cancel_lesson 3 0 teacher_1 1 [row_1; row_2]) = inr CANCELLED_BY_TEACHER
  /\ exists r, get_object teacher_1 [row_1; row_2] 1 = Some r
       /\ blocking (lesson_status (row_lesson r)) = true
       /\ 3 * HOUR <= lesson_start_time (row_lesson r) - 0
       /\ ((CANCELLED_BY_TEACHER = CANCELLED_BY_STUDENT
            /\ user_role teacher_1 = Some ROLE_STUDENT
            /\ user_student_profile teacher_1 = Some (row_student r))
           \/ (CANCELLED_BY_TEACHER = CANCELLED_BY_TEACHER
               /\ user_role teacher_1 = Some ROLE_TEACHER
               /\ user_teacher_profile teacher_1 = Some (lesson_teacher (row_lesson r)))).
Proof.
  assert (H : fst (cancel_lesson 3 0 teacher_1 1 [row_1; row_2]) = inr CANCELLED_BY_TEACHER)
    by (vm_compute; reflexivity).
  split; [exact H |].
  exact (cancel_lesson_success 3 0 teacher_1 1 [row_1; row_2] _ H).
Defined.

(** Extra: [approve_lesson] succeeds only when the user's teacher
    profile teaches the lesson and the lesson is pending; the new status
    is [APPROVED]. The user's [role] is not checked. *)
Theorem approve_lesson_success : forall u pk db s,
  fst (approve_lesson u pk db) = inr s ->
  s = APPROVED
  /\ exists r, get_object u db pk = Some r
       /\ lesson_status (row_lesson r) = VOID
       /\ user_teacher_profile u = Some (lesson_teacher (row_lesson r)).
Proof.
  intros u pk db s H. unfold approve_lesson in H.
  destruct (get_object u db pk) as [r |] eqn:Hg; [| discriminate].
  destruct (profile_is (user_teacher_profile u) (lesson_teacher (row_lesson r)))
    eqn:Hp; [| discriminate].
  simpl in H.
  destruct (lesson_status (row_lesson r)) eqn:Hs; try discriminate.
  injection H as <-. split; [reflexivity |].
  exists r. split; [reflexivity | split; [exact Hs |]].
  destruct (user_teacher_profile u) as [x |]; [| discriminate].
  apply Nat.eqb_eq in Hp. subst. reflexivity.
Qed.

(** A user without a role but with teacher profile 1 approves lesson 1. *)
Definition profile_1_no_role : User := mkUser None (Some 1%nat) None.

Lemma approve_lesson_success_witness :
  fst (approve_lesson profile_1_no_role 1 [row_1; row_2]) = inr APPROVED
  /\ user_teacher_profile profile_1_no_role = Some (lesson_teacher (row_lesson row_1)).
Proof.
  assert (H : fst (approve_lesson profile_1_no_role 1 [row_1; row_2]) = inr APPROVED)
    by (vm_compute; reflexivity).
  split; [exact H |].
  destruct (approve_lesson_success profile_1_no_role 1 [row_1; row_2] _ H)
    as (_ & r & Hg & _ & Hp).
  vm_compute in Hg. injection Hg as <-. exact Hp.
Defined.

(** Extra: on a lesson that has an [end_time], cancelling, approving and
    expiring never change the lesson table, even when the response
    reports the new status ([Lesson.save] skips [super().save()]). *)
Theorem status_actions_lost_on_end_time : forall cancel_deadline now u pk db r,
  get_object u db pk = Some r ->
  lesson_end_time (row_lesson r) <> None ->
  snd (cancel_lesson cancel_deadline now u pk db) = db
  /\ snd (approve_lesson u pk db) = db
  /\ snd (update_status_if_expired now r db) = db.
Proof.
  intros cancel_deadline now u pk db r Hg Hend.
  assert (Hsave : forall s, Lesson_save_row (set_status r s) db = db).
  { intros s. unfold Lesson_save_row. simpl.
    destruct (lesson_end_time (row_lesson r)); [reflexivity | congruence]. }
  split; [| split].
  - unfold cancel_lesson. rewrite Hg.
    destruct (negb _); [reflexivity |]. destruct (_ <? _); [reflexivity |].
    destruct (_ && _); [apply Hsave |].
    destruct (_ && _); [apply Hsave | reflexivity].
  - unfold approve_lesson. rewrite Hg.
    destruct (negb _); [reflexivity |].
    destruct (lesson_status (row_lesson r)); try reflexivity. apply Hsave.
  - unfold update_status_if_expired.
    destruct (_ && _); [apply Hsave | reflexivity].
Qed.

(** Teacher 1's approved lesson 3 (Monday 10:00-11:00) cancelled the day
    before: the response says cancelled, the table is unchanged. *)
Definition row_3 : LessonRow := mkRow 3 7 approved_10_11 false.

Lemma status_actions_lost_on_end_time_witness :
  fst (cancel_lesson 3 (- DAY) teacher_1 3 [row_3]) = inr CANCELLED_BY_TEACHER
  /\ snd (cancel_lesson 3 (- DAY) teacher_1 3 [row_3]) = [row_3].
Proof.
  split; [vm_compute; reflexivity |].
  exact (proj1 (status_actions_lost_on_end_time 3 (- DAY) teacher_1 3 [row_3] row_3
                  eq_refl ltac:(simpl; discriminate))).
Defined.

(* ------------------------------------------------------------------ *)
(** ** The lesson table and booking validation *)

Lemma overlapping_lessons_null_ends : forall lessons teacher start_time end_time,
  Forall (fun l => lesson_end_time l = None) lessons ->
  overlapping_lessons_exist lessons teacher start_time end_time = false.
Proof.
  intros lessons teacher start_time end_time H. unfold overlapping_lessons_exist.
  induction H as [| l ls Hl _ IH]; [reflexivity |].
  simpl. rewrite Hl, andb_false_r. exact IH.
Qed.

(** Extra: [Lesson.save] only ever adds lessons without [end_time] to the
    table, and against a table of such lessons [is_valid] never rejects a
    request with [SlotTaken]. *)
Theorem null_end_table_never_slot_taken : forall l store now schedules req,
  Forall (fun l => lesson_end_time l = None) store ->
  Forall (fun l => lesson_end_time l = None) (Lesson_save l store)
  /\ is_valid now store schedules req <> Rejected SlotTaken.
Proof.
  intros l store now schedules req H. split.
  - unfold Lesson_save. destruct (lesson_end_time l) eqn:He; [exact H |].
    constructor; assumption.
  - unfold is_valid, validate_start_time, validate_duration_hours,
      LessonDetailSerializer_validate, schedule_coverage.
    rewrite overlapping_lessons_null_ends by exact H.
    repeat match goal with
    | |- context [if ?b then _ else _] => destruct b
    end; discriminate.
Qed.

Lemma null_end_table_never_slot_taken_witness :
  Forall (fun l => lesson_end_time l = None) [null_end_lesson]
  /\ is_valid 0 [null_end_lesson] [] booking_10am <> Rejected SlotTaken.
Proof.
  assert (H : Forall (fun l => lesson_end_time l = None) [null_end_lesson])
    by (repeat constructor).
  split; [exact H |].
  exact (proj2 (null_end_table_never_slot_taken null_end_lesson [null_end_lesson]
                  0 [] booking_10am H)).
Defined.

(** Extra: an accepted request starts at or after [now] on the hour,
    lasts one or two hours, is for a subject and category the teacher
    teaches, and meets no pending or approved lesson of the teacher that
    has an [end_time]. *)
Theorem accepted_request_checks : forall now lessons schedules req,
  is_valid now lessons schedules req = Accepted ->
  now <= req_start_time req
  /\ req_start_time req mod HOUR = 0
  /\ (req_duration_hours req = 1 \/ req_duration_hours req = 2)
  /\ req_teaches_subject req = true
  /\ req_teaches_category req = true
  /\ (forall l e, In l lessons -> lesson_teacher l = req_teacher req ->
        blocking (lesson_status l) = true -> lesson_end_time l = Some e ->
        ~ (lesson_start_time l < req_start_time req + req_duration_hours req * HOUR
           /\ req_start_time req < e)).
Proof.
  intros now lessons schedules req H.
  unfold is_valid, validate_start_time, validate_duration_hours,
    LessonDetailSerializer_validate in H.
  destruct (req_start_time req <? now) eqn:Hnow; [discriminate |].
  destruct (negb (req_start_time req mod HOUR =? 0)) eqn:Hal; [discriminate |].
  destruct ((req_duration_hours req =? 1) || (req_duration_hours req =? 2)) eqn:Hd;
    [| discriminate].
  destruct (req_teaches_subject req); [| discriminate].
  destruct (req_teaches_category req); [| discriminate].
  simpl in H.
  destruct (overlapping_lessons_exist _ _ _ _) eqn:Hov; [discriminate |].
  apply Z.ltb_ge in Hnow. apply negb_false_iff, Z.eqb_eq in Hal.
  apply orb_true_iff in Hd as [Hd | Hd]; apply Z.eqb_eq in Hd.
  all: repeat split; auto.
  all: intros l e Hin Ht Hb He [H1 H2].
  all: apply (proj2 (Bool.not_true_iff_false _) Hov);
       apply existsb_exists; exists l; split; [exact Hin |];
       rewrite Ht, Nat.eqb_refl, Hb, He; simpl;
       apply andb_true_iff; split; apply Z.ltb_lt; assumption.
Qed.

Lemma accepted_request_checks_witness :
  is_valid 0 [approved_10_11] [mon_9_12] monday_9_2h = Rejected SlotTaken
  /\ is_valid 0 [approved_10_11] [mon_9_12] booking_10am = Rejected SlotTaken
  /\ is_valid 0 [] [mon_9_12] booking_10am = Accepted
  /\ 0 <= req_start_time booking_10am.
Proof.
  assert (H : is_valid 0 [] [mon_9_12] booking_10am = Accepted)
    by (vm_compute; reflexivity).
  split; [vm_compute; reflexivity |].
  split; [vm_compute; reflexivity |].
  split; [exact H |].
  exact (proj1 (accepted_request_checks 0 [] [mon_9_12] booking_10am H)).
Defined.

(** Extra: a request is accepted when it starts at or after [now] on the
    hour, lasts one or two hours without crossing midnight, is for a
    subject and category the teacher teaches, meets no pending or
    approved lesson of the teacher that has an [end_time], and lies
    within one window of the teacher on its weekday. *)
Theorem covered_request_accepted : forall now lessons schedules req s,
  now <= req_start_time req ->
  req_start_time req mod HOUR = 0 ->
  (req_duration_hours req = 1 \/ req_duration_hours req = 2) ->
  req_teaches_subject req = true ->
  req_teaches_category req = true ->
  (forall l e, In l lessons -> lesson_teacher l = req_teacher req ->
     blocking (lesson_status l) = true -> lesson_end_time l = Some e ->
     ~ (lesson_start_time l < req_start_time req + req_duration_hours req * HOUR
        /\ req_start_time req < e)) ->
  time_of (req_start_time req)
    < time_of (req_start_time req + req_duration_hours req * HOUR) ->
  In s schedules ->
  sched_teacher s = req_teacher req ->
  sched_weekday s = weekday_name (weekday_index (req_start_time req)) ->
  sched_start_time s <= time_of (req_start_time req) ->
  time_of (req_start_time req + req_duration_hours req * HOUR) <= sched_end_time s ->
  is_valid now lessons schedules req = Accepted.
Proof.
  intros now lessons schedules req s Hnow Hal Hdur Hsub Hcat Hfree Hcross
    Hin Ht Hwd Hs He.
  unfold is_valid, validate_start_time, validate_duration_hours,
    LessonDetailSerializer_validate.
  replace (req_start_time req <? now) with false
    by (symmetry; apply Z.ltb_ge; exact Hnow).
  rewrite Hal. simpl.
  replace ((req_duration_hours req =? 1) || (req_duration_hours req =? 2)) with true
    by (destruct Hdur as [-> | ->]; reflexivity).
  rewrite Hsub, Hcat. simpl.
  replace (overlapping_lessons_exist lessons (req_teacher req) (req_start_time req)
             (req_start_time req + req_duration_hours req * HOUR)) with false.
  2: { symmetry. apply Bool.not_true_iff_false. intros Hov.
       unfold overlapping_lessons_exist in Hov.
       apply existsb_exists in Hov as (l & Hl & Hc).
       destruct (lesson_end_time l) as [e |] eqn:Hle;
         [| rewrite !andb_false_r in Hc; discriminate].
       apply andb_true_iff in Hc as [Hc H2]. apply andb_true_iff in Hc as [Hc H1].
       apply andb_true_iff in Hc as [Htl Hb].
       apply Nat.eqb_eq in Htl. apply Z.ltb_lt in H1, H2.
       exact (Hfree l e Hl Htl Hb Hle (conj H1 H2)). }
  unfold schedule_coverage.
  replace (time_of (req_start_time req + req_duration_hours req * HOUR)
           <=? time_of (req_start_time req)) with false
    by (symmetry; apply Z.leb_gt; exact Hcross).
  replace (schedule_exists schedules (req_teacher req)
             (weekday_name (weekday_index (req_start_time req)))
             (fun s0 => (sched_start_time s0 <=? time_of (req_start_time req))
                && (time_of (req_start_time req + req_duration_hours req * HOUR)
                    <=? sched_end_time s0))) with true.
  { reflexivity. }
  symmetry. apply schedule_exists_iff. exists s.
  repeat split; try assumption.
  apply andb_true_iff. split; apply Z.leb_le; assumption.
Qed.

Lemma covered_request_accepted_witness :
  is_valid 0 [approved_10_11] [mon_9_12] (mkBookingRequest 1 (11 * HOUR) 1 true true)
  = Accepted.
Proof.
  apply (covered_request_accepted 0 [approved_10_11] [mon_9_12]
           (mkBookingRequest 1 (11 * HOUR) 1 true true) mon_9_12);
    simpl; try first [reflexivity | lia | left; reflexivity].
  - intros l e [<- | []] _ _ He. simpl in He. injection He as <-. simpl. lia.
  - vm_compute. intros H. discriminate H.
Defined.

(** Extra: a lesson of another teacher, or one that is cancelled or done,
    changes neither the verdict of [is_valid] nor the availability answer
    for the teacher. *)
Theorem irrelevant_lesson_ignored : forall utc_offset now teacher date_from date_to
    schedules lessons req l,
  (lesson_teacher l <> teacher \/ blocking (lesson_status l) = false) ->
  TeacherAvailabilityView_get utc_offset now teacher date_from date_to schedules
    (l :: lessons)
  = TeacherAvailabilityView_get utc_offset now teacher date_from date_to schedules
      lessons
  /\ (req_teacher req = teacher ->
      is_valid now (l :: lessons) schedules req = is_valid now lessons schedules req).
Proof.
  intros utc_offset now teacher date_from date_to schedules lessons req l Hl.
  assert (Hf : Nat.eqb (lesson_teacher l) teacher && blocking (lesson_status l) = false).
  { destruct Hl as [Hl | Hl].
    - apply Nat.eqb_neq in Hl. rewrite Hl. reflexivity.
    - rewrite Hl, andb_false_r. reflexivity. }
  split.
  - assert (Hb : booked_lessons teacher date_from date_to (l :: lessons)
                 = booked_lessons teacher date_from date_to lessons).
    { unfold booked_lessons. cbn [filter]. rewrite Hf. reflexivity. }
    unfold TeacherAvailabilityView_get. rewrite Hb. reflexivity.
  - intros Ht.
    assert (Ho : forall s e, overlapping_lessons_exist (l :: lessons) teacher s e
                             = overlapping_lessons_exist lessons teacher s e).
    { intros s e. unfold overlapping_lessons_exist. cbn [existsb]. rewrite Hf.
      reflexivity. }
    unfold is_valid, LessonDetailSerializer_validate. rewrite Ht, Ho.
    reflexivity.
Qed.

Lemma irrelevant_lesson_ignored_witness :
  is_valid 0 [mkLesson 2 (10 * HOUR) (Some (11 * HOUR)) APPROVED] [mon_9_12]
    booking_10am
  = is_valid 0 [] [mon_9_12] booking_10am.
Proof.
  assert (H : lesson_teacher (mkLesson 2 (10 * HOUR) (Some (11 * HOUR)) APPROVED)
              <> 1%nat) by (simpl; discriminate).
  apply (proj2 (irrelevant_lesson_ignored 0 0 1%nat 0 0 [mon_9_12] [] booking_10am
                  (mkLesson 2 (10 * HOUR) (Some (11 * HOUR)) APPROVED)
                  (or_introl H))).
  reflexivity.
Defined.

(* ------------------------------------------------------------------ *)
(** ** The availability answer *)

Lemma hour_steps_shape : forall fuel c e x,
  In x (hour_steps fuel c e) -> exists k, 0 <= k /\ x = c + k * HOUR.
Proof.
  induction fuel as [| f IH]; intros c e x H; simpl in H; [contradiction |].
  destruct (c <? e); [| contradiction].
  destruct H as [<- | H]; [exists 0; lia |].
  apply IH in H as (k & Hk & ->). exists (k + 1). unfold HOUR. lia.
Qed.

Lemma hour_steps_complete : forall fuel c e k,
  0 <= k -> c + k * HOUR < e -> k < Z.of_nat fuel ->
  In (c + k * HOUR) (hour_steps fuel c e).
Proof.
  induction fuel as [| f IH]; intros c e k Hk Hlt Hf; [simpl in Hf; lia |].
  simpl. replace (c <? e) with true
    by (symmetry; apply Z.ltb_lt; unfold HOUR in *; lia).
  destruct (Z.eq_dec k 0) as [-> | Hk0]; [left; lia |].
  right. replace (c + k * HOUR) with (c + HOUR + (k - 1) * HOUR) by lia.
  apply IH; [lia | lia | lia].
Qed.

Lemma hours_between_complete : forall s e k,
  0 <= k -> s + k * HOUR < e -> In (s + k * HOUR) (hours_between s e).
Proof.
  intros s e k Hk Hlt. unfold hours_between. apply hour_steps_complete; auto.
  assert (k + 1 <= (e - s + HOUR - 1) / HOUR).
  { apply Z.div_le_lower_bound; unfold HOUR in *; lia. }
  rewrite Z2Nat.id; lia.
Qed.

(** An entry of the answer: its date is in the range, its list is the
    concatenation of the slots of the teacher's windows of that weekday,
    and it is not empty. *)
Lemma availability_entry : forall utc_offset now teacher date_from date_to
    schedules lessons d daily,
  In (d, daily) (TeacherAvailabilityView_get utc_offset now teacher
                   date_from date_to schedules lessons) ->
  In d (date_range date_from date_to) /\ daily <> []
  /\ daily = flat_map (window_slots now
               (booked_slots utc_offset
                  (booked_lessons teacher date_from date_to lessons)) d)
             (filter (fun s => weekday_eqb (sched_weekday s) (weekday_name (d mod 7)))
                (sort_by_start
                   (filter (fun s => Nat.eqb (sched_teacher s) teacher) schedules))).
Proof.
  intros until daily. intros H. unfold TeacherAvailabilityView_get in H.
  apply in_flat_map in H as (cd & Hcd & H).
  match type of H with
  | In _ (match ?x with [] => _ | _ :: _ => _ end) =>
      destruct x as [| a l] eqn:Hdaily; [contradiction |]
  end.
  destruct H as [H | []]. injection H as <- <-.
  split; [exact Hcd | split; [discriminate | symmetry; exact Hdaily]].
Qed.

Lemma date_range_sorted : forall a k n,
  StronglySorted Z.lt (map (fun i => a + Z.of_nat i) (seq k n)).
Proof.
  intros a k n. revert k. induction n as [| n IH]; intros k; simpl; constructor.
  - apply IH.
  - apply Forall_forall. intros x Hx. apply in_map_iff in Hx as (i & <- & Hi).
    apply in_seq in Hi. lia.
Qed.

Lemma flat_map_keyed_sorted : forall {A} (f : Z -> list (Z * A)) l,
  StronglySorted Z.lt l ->
  (forall x, f x = [] \/ exists v, f x = [(x, v)]) ->
  StronglySorted Z.lt (map fst (flat_map f l)).
Proof.
  intros A f l Hl Hf. induction Hl as [| x l Hl IH Hx]; simpl; [constructor |].
  destruct (Hf x) as [-> | (v & ->)]; simpl; [exact IH |].
  constructor; [exact IH |].
  apply Forall_forall. intros y Hy. apply in_map_iff in Hy as ([y' w] & <- & Hy).
  apply in_flat_map in Hy as (z & Hz & Hy). simpl.
  destruct (Hf z) as [Hn | (v' & Hv)]; rewrite ?Hn, ?Hv in Hy; [contradiction |].
  destruct Hy as [Hy | []]. injection Hy as -> _.
  rewrite Forall_forall in Hx. apply Hx, Hz.
Qed.

(** Extra: the availability answer lists each date at most once, in
    increasing order; every listed date lies between [date_from] and
    [date_to], and dates without a free slot are left out. *)
Theorem availability_dates_ordered : forall utc_offset now teacher date_from date_to
    schedules lessons,
  let result := TeacherAvailabilityView_get utc_offset now teacher date_from date_to
                  schedules lessons in
  StronglySorted Z.lt (map fst result)
  /\ forall d daily, In (d, daily) result ->
       date_from <= d <= date_to /\ daily <> [].
Proof.
  intros utc_offset now teacher date_from date_to schedules lessons result.
  split.
  - unfold result, TeacherAvailabilityView_get.
    apply flat_map_keyed_sorted; [apply date_range_sorted |].
    intros x. match goal with
    | |- (match ?y with [] => _ | _ :: _ => _ end) = [] \/ _ =>
        destruct y; [left; reflexivity | right; eexists; reflexivity]
    end.
  - intros d daily H.
    destruct (availability_entry _ _ _ _ _ _ _ _ _ H) as (Hd & Hne & _).
    split; [| exact Hne].
    unfold date_range in Hd. apply in_map_iff in Hd as (i & <- & Hi).
    apply in_seq in Hi. lia.
Qed.

(** Extra: when a slot of the answer is marked [can_book_2_hours], the
    following hour is offered too, in the same date's list. *)
Theorem two_hour_slot_next_offered : forall utc_offset now teacher date_from date_to
    schedules lessons d daily sl,
  In (d, daily) (TeacherAvailabilityView_get utc_offset now teacher
                   date_from date_to schedules lessons) ->
  In sl daily ->
  can_book_2_hours sl = true ->
  exists b, In (mkSlot (slot_start_time sl + HOUR) b) daily.
Proof.
  intros until sl. intros H Hsl H2.
  destruct (availability_entry _ _ _ _ _ _ _ _ _ H) as (_ & _ & Hdaily).
  set (booked := booked_slots utc_offset
                   (booked_lessons teacher date_from date_to lessons)) in *.
  rewrite Hdaily in Hsl |- *.
  apply in_flat_map in Hsl as (s & Hs & Hw).
  apply In_window_slots in Hw as (cur & Hcur & Hfree & Hnow & ->).
  simpl in H2 |- *. apply andb_true_iff in H2 as [Hend Hnext].
  apply Z.ltb_lt in Hend. apply negb_true_iff in Hnext.
  unfold hours_between in Hcur.
  destruct (hour_steps_shape _ _ _ _ Hcur) as (k & Hk & Hck).
  eexists. apply in_flat_map. exists s. split; [exact Hs |].
  unfold window_slots. apply in_flat_map. exists (cur + HOUR). split.
  - rewrite Hck. replace (combine d (sched_start_time s) + k * HOUR + HOUR)
      with (combine d (sched_start_time s) + (k + 1) * HOUR) by lia.
    apply hours_between_complete; lia.
  - rewrite Hnext. replace (cur + HOUR <=? now) with false
      by (symmetry; apply Z.leb_gt; unfold HOUR; lia).
    simpl. left. reflexivity.
Qed.

(** Monday 9:00-12:00 on day 0 with nothing booked: the 9:00 slot is
    marked [can_book_2_hours]. *)
Lemma two_hour_slot_next_offered_witness :
  TeacherAvailabilityView_get 0 0 1 0 0 [mon_9_12] []
  = [(0, [mkSlot (9 * HOUR) true; mkSlot (10 * HOUR) true; mkSlot (11 * HOUR) false])]
  /\ exists b, In (mkSlot (9 * HOUR + HOUR) b)
       [mkSlot (9 * HOUR) true; mkSlot (10 * HOUR) true; mkSlot (11 * HOUR) false].
Proof.
  assert (Hget : TeacherAvailabilityView_get 0 0 1 0 0 [mon_9_12] []
                 = [(0, [mkSlot (9 * HOUR) true; mkSlot (10 * HOUR) true;
                         mkSlot (11 * HOUR) false])])
    by (vm_compute; reflexivity).
  split; [exact Hget |].
  apply (two_hour_slot_next_offered 0 0 1 0 0 [mon_9_12] [] 0
           _ (mkSlot (9 * HOUR) true)).
  - rewrite Hget. left. reflexivity.
  - left. reflexivity.
  - reflexivity.
Defined.

(** Extra: every slot the availability view offers on a date starts a
    whole number of hours after the start of one of the teacher's windows
    for that date's weekday, before the window's end, and is not one of
    the booked hours the view computed. *)
Theorem availability_slot_origin : forall utc_offset now teacher date_from date_to
    schedules lessons d daily sl,
  In (d, daily) (TeacherAvailabilityView_get utc_offset now teacher
                   date_from date_to schedules lessons) ->
  In sl daily ->
  exists s k, In s schedules /\ sched_teacher s = teacher
    /\ sched_weekday s = weekday_name (d mod 7)
    /\ 0 <= k
    /\ slot_start_time sl = combine d (sched_start_time s) + k * HOUR
    /\ slot_start_time sl < combine d (sched_end_time s)
    /\ ~ In (slot_start_time sl)
           (booked_slots utc_offset (booked_lessons teacher date_from date_to lessons)).
Proof.
  intros until sl. intros H Hsl.
  destruct (In_availability _ _ _ _ _ _ _ _ _ _ H Hsl) as (s & Hs & Ht & Hwd & Hw).
  apply In_window_slots in Hw as (cur & Hcur & Hfree & Hnow & ->).
  pose proof (hours_between_bounds _ _ _ Hcur) as Hb.
  unfold hours_between in Hcur.
  destruct (hour_steps_shape _ _ _ _ Hcur) as (k & Hk & Hck).
  exists s, k. simpl. repeat split; try assumption; try lia.
  intros Hin. apply mem_In in Hin. congruence.
Qed.

Lemma availability_slot_origin_witness :
  TeacherAvailabilityView_get 0 0 1 0 0 [mon_9_12] [approved_10_11]
  = [(0, [mkSlot (9 * HOUR) false; mkSlot (11 * HOUR) false])]
  /\ exists s k, In s [mon_9_12] /\ sched_teacher s = 1%nat
     /\ sched_weekday s = weekday_name (0 mod 7) /\ 0 <= k
     /\ 11 * HOUR = combine 0 (sched_start_time s) + k * HOUR
     /\ 11 * HOUR < combine 0 (sched_end_time s)
     /\ ~ In (11 * HOUR) (booked_slots 0 (booked_lessons 1 0 0 [approved_10_11])).
Proof.
  assert (Hget : TeacherAvailabilityView_get 0 0 1 0 0 [mon_9_12] [approved_10_11]
                 = [(0, [mkSlot (9 * HOUR) false; mkSlot (11 * HOUR) false])])
    by (vm_compute; reflexivity).
  split; [exact Hget |].
  exact (availability_slot_origin 0 0 1 0 0 [mon_9_12] [approved_10_11] 0 _
           (mkSlot (11 * HOUR) false)
           ltac:(rewrite Hget; left; reflexivity) ltac:(right; left; reflexivity)).
Defined.

(** Extra: the availability answer is empty when [date_to] is before
    [date_from], and when the teacher has no schedule window. *)
Theorem availability_empty : forall utc_offset now teacher date_from date_to
    schedules lessons,
  (date_to < date_from \/ forall s, In s schedules -> sched_teacher s <> teacher) ->
  TeacherAvailabilityView_get utc_offset now teacher date_from date_to schedules
    lessons = [].
Proof.
  intros utc_offset now teacher date_from date_to schedules lessons [H | H].
  - unfold TeacherAvailabilityView_get, date_range.
    replace (Z.to_nat (date_to - date_from + 1)) with 0%nat by lia.
    reflexivity.
  - assert (Hnil : filter (fun s => Nat.eqb (sched_teacher s) teacher) schedules = []).
    { induction schedules as [| s ss IH]; [reflexivity |]. simpl.
      replace (Nat.eqb (sched_teacher s) teacher) with false.
      - apply IH. intros x Hx. apply H. right. exact Hx.
      - symmetry. apply Nat.eqb_neq, H. left. reflexivity. }
    unfold TeacherAvailabilityView_get. rewrite Hnil.
    generalize (date_range date_from date_to).
    intros l. induction l as [| x l IH]; [reflexivity | exact IH].
Qed.

Lemma availability_empty_witness :
  TeacherAvailabilityView_get 0 0 1 7 0 [mon_9_12] [] = []
  /\ TeacherAvailabilityView_get 0 0 2 0 6 [mon_9_12] [] = [].
Proof.
  split.
  - apply availability_empty. left. lia.
  - apply availability_empty. right. intros s [<- | []]. simpl. discriminate.
Defined.

Lemma window_slots_intro : forall now booked d s cur,
  In cur (hours_between (combine d (sched_start_time s))
                        (combine d (sched_end_time s))) ->
  ~ In cur booked -> now < cur ->
  exists b, In (mkSlot cur b) (window_slots now booked d s).
Proof.
  intros now booked d s cur Hcur Hfree Hnow.
  eexists. unfold window_slots. apply in_flat_map. exists cur.
  split; [exact Hcur |].
  replace (mem cur booked) with false
    by (symmetry; apply Bool.not_true_iff_false; rewrite mem_In; exact Hfree).
  replace (cur <=? now) with false by (symmetry; apply Z.leb_gt; exact Hnow).
  simpl. left. reflexivity.
Qed.

(** A free slot of a window of the teacher on a date of the range is
    listed under that date. *)
Lemma availability_complete : forall utc_offset now teacher date_from date_to
    schedules lessons d s sl,
  date_from <= d <= date_to ->
  In s schedules -> sched_teacher s = teacher ->
  sched_weekday s = weekday_name (d mod 7) ->
  In sl (window_slots now (booked_slots utc_offset
           (booked_lessons teacher date_from date_to lessons)) d s) ->
  exists daily, In (d, daily) (TeacherAvailabilityView_get utc_offset now teacher
                                 date_from date_to schedules lessons)
    /\ In sl daily.
Proof.
  intros until sl. intros Hd Hs Ht Hwd Hsl.
  unfold TeacherAvailabilityView_get.
  set (booked := booked_slots utc_offset
                   (booked_lessons teacher date_from date_to lessons)) in *.
  set (daily := flat_map (window_slots now booked d)
         (filter (fun s => weekday_eqb (sched_weekday s) (weekday_name (d mod 7)))
            (sort_by_start
               (filter (fun s => Nat.eqb (sched_teacher s) teacher) schedules)))).
  assert (Hin : In sl daily).
  { unfold daily. apply in_flat_map. exists s. split; [| exact Hsl].
    apply filter_In. split.
    - apply In_sort_by_start, filter_In. split; [exact Hs |].
      apply Nat.eqb_eq, Ht.
    - apply weekday_eqb_eq, Hwd. }
  exists daily. split; [| exact Hin].
  apply in_flat_map. exists d. split.
  - unfold date_range. apply in_map_iff. exists (Z.to_nat (d - date_from)).
    split; [lia |]. apply in_seq. lia.
  - fold daily. destruct daily as [| a l]; [contradiction | left; reflexivity].
Qed.

(** Extra: the booked hours are read back in UTC and compared with local
    slot times, so with a nonzero UTC offset a pending or approved
    lesson of the teacher, with no [end_time] or lasting one hour, does
    not remove its own hour from the answer: when that hour is a free
    future step of a window of the teacher, it is still offered. *)
Theorem booked_hour_offered_with_offset : forall utc_offset now teacher
    date_from date_to schedules l s k,
  utc_offset <> 0 ->
  lesson_teacher l = teacher ->
  blocking (lesson_status l) = true ->
  (lesson_end_time l = None
   \/ lesson_end_time l = Some (lesson_start_time l + HOUR)) ->
  date_from <= date_of (lesson_start_time l) <= date_to ->
  In s schedules -> sched_teacher s = teacher ->
  sched_weekday s = weekday_name (date_of (lesson_start_time l) mod 7) ->
  0 <= k ->
  lesson_start_time l
    = combine (date_of (lesson_start_time l)) (sched_start_time s) + k * HOUR ->
  lesson_start_time l
    < combine (date_of (lesson_start_time l)) (sched_end_time s) ->
  now < lesson_start_time l ->
  exists daily b,
    In (date_of (lesson_start_time l), daily)
       (TeacherAvailabilityView_get utc_offset now teacher date_from date_to
          schedules [l])
    /\ In (mkSlot (lesson_start_time l) b) daily.
Proof.
  intros utc_offset now teacher date_from date_to schedules l s k
    Hoff Ht Hb Hend Hdate Hs Hst Hwd Hk Hx Hxe Hnow.
  set (x := lesson_start_time l) in *. set (d := date_of x) in *.
  assert (Hbooked : booked_slots utc_offset
                      (booked_lessons teacher date_from date_to [l])
                    = [x - utc_offset]).
  { unfold booked_lessons. cbn [filter]. rewrite Ht, Nat.eqb_refl, Hb.
    replace (date_from <=? date_of (lesson_start_time l)) with true
      by (symmetry; apply Z.leb_le; exact (proj1 Hdate)).
    replace (date_of (lesson_start_time l) <=? date_to) with true
      by (symmetry; apply Z.leb_le; exact (proj2 Hdate)).
    unfold booked_slots. simpl. fold x.
    destruct Hend as [-> | ->]; [reflexivity |].
    unfold hours_between.
    replace (Z.to_nat ((x + HOUR - x + HOUR - 1) / HOUR)) with 1%nat
      by (replace (x + HOUR - x + HOUR - 1) with (2 * HOUR - 1) by lia;
          reflexivity).
    simpl. replace (x <? x + HOUR) with true
      by (symmetry; apply Z.ltb_lt; unfold HOUR; lia).
    reflexivity. }
  assert (Hcur : In x (hours_between (combine d (sched_start_time s))
                                      (combine d (sched_end_time s)))).
  { rewrite Hx. apply hours_between_complete; lia. }
  destruct (window_slots_intro now
              (booked_slots utc_offset (booked_lessons teacher date_from date_to [l]))
              d s x Hcur) as (b & Hsl).
  { rewrite Hbooked. intros [Hin | []]. lia. }
  { exact Hnow. }
  destruct (availability_complete utc_offset now teacher date_from date_to
              schedules [l] d s _ Hdate Hs Hst Hwd Hsl) as (daily & Hd & Hin).
  exists daily, b. split; assumption.
Qed.

(** With Kiev's winter offset of two hours, teacher 1's approved
    10:00-11:00 lesson on Monday leaves the 10:00 slot offered. *)
Lemma booked_hour_offered_with_offset_witness :
  TeacherAvailabilityView_get (2 * HOUR) 0 1 0 0 [mon_9_12] [approved_10_11]
  = [(0, [mkSlot (9 * HOUR) true; mkSlot (10 * HOUR) true; mkSlot (11 * HOUR) false])]
  /\ exists daily b,
    In (date_of (lesson_start_time approved_10_11), daily)
       (TeacherAvailabilityView_get (2 * HOUR) 0 1 0 0 [mon_9_12] [approved_10_11])
    /\ In (mkSlot (lesson_start_time approved_10_11) b) daily.
Proof.
  split; [vm_compute; reflexivity |].
  apply (booked_hour_offered_with_offset (2 * HOUR) 0 1 0 0 [mon_9_12]
           approved_10_11 mon_9_12 1);
    first [ discriminate | reflexivity | lia | right; reflexivity
          | left; reflexivity | vm_compute; split; discriminate | idtac ].
Defined.

(* ------------------------------------------------------------------ *)
(** ** The schedule store *)

(** What a successful schedule request went through: all three fields
    present, an owned row for updates, no other overlapping window of the
    teacher that weekday, and the row saved. *)
Lemma schedule_request_inv : forall teacher act sub st st',
  schedule_request teacher act sub st = inr st' ->
  exists wd s e,
    sub_weekday sub = Some wd /\ sub_start_time sub = Some s
    /\ sub_end_time sub = Some e
    /\ (forall pk, action_pk act = Some pk -> own_row teacher st pk = true)
    /\ (forall r, In r (rows st) -> sched_teacher (snd r) = teacher ->
          sched_weekday (snd r) = wd -> sched_start_time (snd r) < e ->
          s < sched_end_time (snd r) -> action_pk act = Some (fst r))
    /\ st' = save_schedule act (mkSchedule teacher wd s e) st.
Proof.
  intros teacher act sub st st' H.
  unfold schedule_request in H. cbv zeta in H.
  assert (Hown : forall pk, action_pk act = Some pk -> own_row teacher st pk = true).
  { intros pk Hpk. rewrite Hpk in H.
    destruct (own_row teacher st pk); [reflexivity | discriminate]. }
  destruct (match action_pk act with
            | Some pk => if own_row teacher st pk then None else Some NotFound
            | None => None end); [discriminate |].
  destruct (required_fields (action_partial act) sub); [discriminate |].
  destruct (ScheduleSerializer_validate sub); [discriminate |].
  unfold ScheduleViewSet_perform_create in H.
  destruct (sub_start_time sub) as [s |]; [| discriminate].
  destruct (sub_end_time sub) as [e |]; [| discriminate].
  destruct (sub_weekday sub) as [wd |]; [| discriminate].
  destruct (existsb _ (rows st)) eqn:Hov; [discriminate |].
  injection H as <-.
  exists wd, s, e. repeat split; try assumption.
  intros r Hr Ht Hwd H1 H2.
  apply (proj2 (Bool.not_true_iff_false _)) in Hov.
  destruct (action_pk act) as [pk |] eqn:Hpk.
  - destruct (Nat.eq_dec (fst r) pk) as [-> | Hne]; [reflexivity |].
    exfalso. apply Hov, existsb_exists. exists r. split; [exact Hr |].
    rewrite Ht, Nat.eqb_refl, Hwd, (proj2 (weekday_eqb_eq wd wd) eq_refl).
    apply Z.ltb_lt in H1, H2. rewrite H1, H2.
    apply Nat.eqb_neq in Hne. rewrite Hne. reflexivity.
  - exfalso. apply Hov, existsb_exists. exists r. split; [exact Hr |].
    rewrite Ht, Nat.eqb_refl, Hwd, (proj2 (weekday_eqb_eq wd wd) eq_refl).
    apply Z.ltb_lt in H1, H2. rewrite H1, H2. reflexivity.
Qed.

Lemma In_save_update : forall pk row (l : list (nat * Schedule)) p s,
  In (p, s) (map (fun r => if Nat.eqb (fst r) pk then (pk, row) else r) l) ->
  exists s0, In (p, s0) l /\ ((p = pk /\ s = row) \/ (p <> pk /\ s = s0)).
Proof.
  intros pk row l p s H. apply in_map_iff in H as ([p0 s0] & Heq & Hin).
  simpl in Heq. destruct (Nat.eqb_spec p0 pk) as [-> | Hne].
  - injection Heq as <- <-. exists s0. auto.
  - injection Heq as -> ->. exists s. auto.
Qed.

Lemma map_fst_save_update : forall pk row (l : list (nat * Schedule)),
  map fst (map (fun r => if Nat.eqb (fst r) pk then (pk, row) else r) l) = map fst l.
Proof.
  intros pk row l. rewrite map_map. apply map_ext.
  intros [p s]. simpl. destruct (Nat.eqb_spec p pk) as [-> | _]; reflexivity.
Qed.

Lemma NoDup_fst_unique : forall (l : list (nat * Schedule)) k a b,
  NoDup (map fst l) -> In (k, a) l -> In (k, b) l -> a = b.
Proof.
  induction l as [| [p s] l IH]; intros k a b Hnd Ha Hb; [contradiction |].
  simpl in Hnd. inversion Hnd as [| x xs Hp Hnd']. subst.
  destruct Ha as [Ha | Ha], Hb as [Hb | Hb].
  - congruence.
  - injection Ha as -> ->. exfalso. apply Hp, in_map_iff. exists (k, b). auto.
  - injection Hb as -> ->. exfalso. apply Hp, in_map_iff. exists (k, a). auto.
  - exact (IH k a b Hnd' Ha Hb).
Qed.

(** The consistency of the schedule table that [ScheduleViewSet] relies
    on: distinct keys, all below the next key, and no two windows of one
    teacher on one weekday overlapping. *)
Definition schedule_store_ok (st : ScheduleStore) : Prop :=
  NoDup (map fst (rows st))
  /\ (forall pk s, In (pk, s) (rows st) -> (pk < next_pk st)%nat)
  /\ (forall p1 s1 p2 s2, In (p1, s1) (rows st) -> In (p2, s2) (rows st) ->
        p1 <> p2 -> sched_teacher s1 = sched_teacher s2 ->
        sched_weekday s1 = sched_weekday s2 ->
        ~ (sched_start_time s1 < sched_end_time s2
           /\ sched_start_time s2 < sched_end_time s1)).

(** Extra: every successful create, update or partial update keeps the
    schedule table consistent: keys stay distinct and below the next key,
    and no two windows of a teacher on the same weekday overlap. *)
Theorem schedule_request_keeps_store_ok : forall teacher act sub st st',
  schedule_store_ok st ->
  schedule_request teacher act sub st = inr st' ->
  schedule_store_ok st'.
Proof.
  intros teacher act sub st st' (Hnd & Hfresh & Hov) H.
  apply schedule_request_inv in H
    as (wd & s & e & _ & _ & _ & _ & Hfree & ->).
  set (row := mkSchedule teacher wd s e).
  unfold save_schedule.
  destruct (action_pk act) as [pk |] eqn:Hpk.
  - split; [| split]; simpl.
    + rewrite map_fst_save_update. exact Hnd.
    + intros p s1 Hin. apply In_save_update in Hin as (s0 & Hin & _).
      exact (Hfresh _ _ Hin).
    + intros p1 s1 p2 s2 H1 H2 Hne Ht Hwd.
      apply In_save_update in H1 as (s01 & H1 & [[-> ->] | [Hne1 ->]]);
      apply In_save_update in H2 as (s02 & H2 & [[-> ->] | [Hne2 ->]]).
      * congruence.
      * intros [Ha Hb]. simpl in Ht, Hwd, Ha, Hb.
        assert (Hp := Hfree (p2, s02) H2 (eq_sym Ht) (eq_sym Hwd) Hb Ha).
        simpl in Hp. congruence.
      * intros [Ha Hb]. simpl in Ht, Hwd, Ha, Hb.
        assert (Hp := Hfree (p1, s01) H1 Ht Hwd Ha Hb).
        simpl in Hp. congruence.
      * exact (Hov _ _ _ _ H1 H2 Hne Ht Hwd).
  - assert (Hnew : ~ In (next_pk st) (map fst (rows st))).
    { intros Hin. apply in_map_iff in Hin as ([p s0] & Hp & Hin). simpl in Hp.
      subst p. apply Hfresh in Hin. lia. }
    split; [| split]; simpl.
    + constructor; assumption.
    + intros p s1 [Heq | Hin]; [injection Heq as <- _; lia |].
      apply Hfresh in Hin. lia.
    + intros p1 s1 p2 s2 H1 H2 Hne Ht Hwd.
      destruct H1 as [H1 | H1], H2 as [H2 | H2].
      * injection H1 as <- _. injection H2 as <- _. congruence.
      * injection H1 as <- <-. intros [Ha Hb]. simpl in Ht, Hwd, Ha, Hb.
        assert (Hp := Hfree (p2, s2) H2 (eq_sym Ht) (eq_sym Hwd) Hb Ha).
        discriminate.
      * injection H2 as <- <-. intros [Ha Hb]. simpl in Ht, Hwd, Ha, Hb.
        assert (Hp := Hfree (p1, s1) H1 Ht Hwd Ha Hb).
        discriminate.
      * exact (Hov _ _ _ _ H1 H2 Hne Ht Hwd).
Qed.

Definition store_mon_9_10 : ScheduleStore := mkStore [(0%nat, mon_9_10)] 1.

Definition sub_mon_10_11 : ScheduleSubmission :=
  mkSubmission (Some monday) (Some (10 * HOUR)) (Some (11 * HOUR)).

Lemma schedule_request_keeps_store_ok_witness :
  schedule_store_ok store_mon_9_10
  /\ schedule_request 1 Create sub_mon_10_11 store_mon_9_10
     = inr (mkStore [(1%nat, mon_10_11); (0%nat, mon_9_10)] 2)
  /\ schedule_store_ok (mkStore [(1%nat, mon_10_11); (0%nat, mon_9_10)] 2).
Proof.
  assert (Hok : schedule_store_ok store_mon_9_10).
  { split; [| split]; simpl.
    - repeat constructor. simpl. tauto.
    - intros pk s [Heq | []]. injection Heq as <- _. lia.
    - intros p1 s1 p2 s2 [H1 | []] [H2 | []]. congruence. }
  assert (Hreq : schedule_request 1 Create sub_mon_10_11 store_mon_9_10
                 = inr (mkStore [(1%nat, mon_10_11); (0%nat, mon_9_10)] 2))
    by (vm_compute; reflexivity).
  split; [exact Hok | split; [exact Hreq |]].
  exact (schedule_request_keeps_store_ok 1 Create sub_mon_10_11 store_mon_9_10 _
           Hok Hreq).
Defined.

(** Extra: when the schedule table has distinct keys, a teacher's
    successful request leaves the rows of every other teacher exactly as
    they were. *)
Theorem schedule_request_other_teachers : forall teacher act sub st st',
  NoDup (map fst (rows st)) ->
  schedule_request teacher act sub st = inr st' ->
  filter (fun r => negb (Nat.eqb (sched_teacher (snd r)) teacher)) (rows st')
  = filter (fun r => negb (Nat.eqb (sched_teacher (snd r)) teacher)) (rows st).
Proof.
  intros teacher act sub st st' Hnd H.
  apply schedule_request_inv in H as (wd & s & e & _ & _ & _ & Hown & _ & ->).
  unfold save_schedule.
  destruct (action_pk act) as [pk |] eqn:Hpk; simpl.
  - specialize (Hown pk eq_refl). unfold own_row in Hown.
    apply existsb_exists in Hown as ([p0 s0] & Hin0 & Hc). simpl in Hc.
    apply andb_true_iff in Hc as [Hp0 Ht0].
    apply Nat.eqb_eq in Hp0, Ht0. subst p0.
    assert (Hall : forall r, In r (rows st) -> fst r = pk ->
                   sched_teacher (snd r) = teacher).
    { intros [p1 s1] Hin1 Hp1. simpl in Hp1 |- *. subst p1.
      rewrite (NoDup_fst_unique _ _ _ _ Hnd Hin1 Hin0). exact Ht0. }
    clear Hnd Hin0. induction (rows st) as [| r rs IH]; [reflexivity |].
    simpl. destruct (Nat.eqb_spec (fst r) pk) as [Hr | Hr].
    + simpl. rewrite Nat.eqb_refl.
      rewrite (Hall r (or_introl eq_refl) Hr), Nat.eqb_refl. simpl.
      apply IH. intros r' Hr'. apply Hall. right. exact Hr'.
    + destruct (negb _); [f_equal |]; apply IH; intros r' Hr'; apply Hall;
        right; exact Hr'.
  - rewrite Nat.eqb_refl. reflexivity.
Qed.

(** Teacher 1 moves window 0 while teacher 2's window 1 stays. *)
Lemma schedule_request_other_teachers_witness :
  schedule_request 1 (Update 0) sub_mon_10_11
    (mkStore [(0%nat, mon_9_10); (1%nat, mkSchedule 2 monday (9 * HOUR) (12 * HOUR))] 2)
  = inr (mkStore [(0%nat, mon_10_11); (1%nat, mkSchedule 2 monday (9 * HOUR) (12 * HOUR))] 2)
  /\ filter (fun r => negb (Nat.eqb (sched_teacher (snd r)) 1))
       [(0%nat, mon_10_11); (1%nat, mkSchedule 2 monday (9 * HOUR) (12 * HOUR))]
     = filter (fun r => negb (Nat.eqb (sched_teacher (snd r)) 1))
         [(0%nat, mon_9_10); (1%nat, mkSchedule 2 monday (9 * HOUR) (12 * HOUR))].
Proof.
  assert (Hreq : schedule_request 1 (Update 0) sub_mon_10_11
    (mkStore [(0%nat, mon_9_10); (1%nat, mkSchedule 2 monday (9 * HOUR) (12 * HOUR))] 2)
    = inr (mkStore [(0%nat, mon_10_11);
                    (1%nat, mkSchedule 2 monday (9 * HOUR) (12 * HOUR))] 2))
    by (vm_compute; reflexivity).
  assert (Hnd : NoDup (map fst [(0%nat, mon_9_10);
                                (1%nat, mkSchedule 2 monday (9 * HOUR) (12 * HOUR))]))
    by (simpl; repeat constructor; simpl; lia).
  split; [exact Hreq |].
  exact (schedule_request_other_teachers 1 (Update 0) sub_mon_10_11
    (mkStore [(0%nat, mon_9_10); (1%nat, mkSchedule 2 monday (9 * HOUR) (12 * HOUR))] 2)
    (mkStore [(0%nat, mon_10_11); (1%nat, mkSchedule 2 monday (9 * HOUR) (12 * HOUR))] 2)
    Hnd Hreq).
Defined.

(** Extra: a schedule request whose body lacks the weekday, the start or
    the end never succeeds. On a row the teacher owns, a create or a full
    update fails with a validation error ([required] fields), and a
    partial update that passes [ScheduleSerializer.validate] fails with
    [KeyError] in [perform_create] instead of keeping the stored value. *)
Theorem schedule_request_needs_all_fields : forall teacher act sub st,
  (sub_weekday sub = None \/ sub_start_time sub = None \/ sub_end_time sub = None) ->
  (exists err, schedule_request teacher act sub st = inl err)
  /\ ((forall pk, action_pk act = Some pk -> own_row teacher st pk = true) ->
      action_partial act = false ->
      schedule_request teacher act sub st = inl ValidationError)
  /\ (forall pk, act = PartialUpdate pk -> own_row teacher st pk = true ->
      ScheduleSerializer_validate sub = None ->
      schedule_request teacher act sub st = inl KeyError).
Proof.
  intros teacher act sub st Hmiss. split; [| split].
  - destruct (schedule_request teacher act sub st) as [err | st'] eqn:H;
      [exists err; reflexivity |].
    apply schedule_request_inv in H as (wd & s & e & Hw & Hs & He & _).
    destruct Hmiss as [Hm | [Hm | Hm]]; congruence.
  - intros Hown Hpartial. unfold schedule_request. cbv zeta.
    replace (match action_pk act with
             | Some pk => if own_row teacher st pk then None else Some NotFound
             | None => None end) with (@None ScheduleError)
      by (destruct (action_pk act) as [pk |]; [rewrite (Hown pk eq_refl) |];
          reflexivity).
    rewrite Hpartial. unfold required_fields.
    destruct Hmiss as [Hm | [Hm | Hm]]; rewrite Hm;
      [reflexivity | destruct (sub_weekday sub); reflexivity
      | destruct (sub_weekday sub), (sub_start_time sub); reflexivity].
  - intros pk -> Hown Hv. unfold schedule_request. cbv zeta. simpl.
    rewrite Hown, Hv. unfold ScheduleViewSet_perform_create.
    destruct Hmiss as [Hm | [Hm | Hm]]; rewrite Hm;
      [destruct (sub_start_time sub), (sub_end_time sub); reflexivity
      | reflexivity | destruct (sub_start_time sub); reflexivity].
Qed.

(** A PATCH of window 0 that only sends a new start: [KeyError]; the
    same body as a PUT: validation error. *)
Lemma schedule_request_needs_all_fields_witness :
  schedule_request 1 (PartialUpdate 0) (mkSubmission None (Some (8 * HOUR)) None)
    store_mon_9_10 = inl KeyError
  /\ schedule_request 1 (Update 0) (mkSubmission None (Some (8 * HOUR)) None)
    store_mon_9_10 = inl ValidationError.
Proof.
  assert (Hmiss : sub_weekday (mkSubmission None (Some (8 * HOUR)) None) = None
                  \/ sub_start_time (mkSubmission None (Some (8 * HOUR)) None) = None
                  \/ sub_end_time (mkSubmission None (Some (8 * HOUR)) None) = None)
    by (left; reflexivity).
  split.
  - apply (proj2 (proj2 (schedule_request_needs_all_fields 1 (PartialUpdate 0)
             (mkSubmission None (Some (8 * HOUR)) None) store_mon_9_10 Hmiss)) 0%nat);
      reflexivity.
  - apply (proj1 (proj2 (schedule_request_needs_all_fields 1 (Update 0)
             (mkSubmission None (Some (8 * HOUR)) None) store_mon_9_10 Hmiss)));
      [intros pk Hpk; injection Hpk as <-; reflexivity | reflexivity].
Defined.

(** Extra: after a successful request the submitted window is stored for
    the requesting teacher, under a fresh key ([next_pk], which then
    grows by one) for a create and under the updated key otherwise; every
    row under any other key is kept as it was. *)
Theorem schedule_request_saves : forall teacher act sub st st',
  schedule_request teacher act sub st = inr st' ->
  let key := match action_pk act with Some pk => pk | None => next_pk st end in
  exists wd s e,
    sub_weekday sub = Some wd /\ sub_start_time sub = Some s
    /\ sub_end_time sub = Some e
    /\ In (key, mkSchedule teacher wd s e) (rows st')
    /\ next_pk st' = match action_pk act with
                     | Some _ => next_pk st
                     | None => S (next_pk st)
                     end
    /\ forall p r, p <> key -> (In (p, r) (rows st') <-> In (p, r) (rows st)).
Proof.
  intros teacher act sub st st' H key.
  apply schedule_request_inv in H as (wd & s & e & Hw & Hs & He & Hown & _ & ->).
  exists wd, s, e. split; [exact Hw | split; [exact Hs | split; [exact He |]]].
  unfold key, save_schedule. clear key.
  destruct (action_pk act) as [pk |] eqn:Hpk; simpl.
  - split; [| split; [reflexivity |]].
    + specialize (Hown pk eq_refl). unfold own_row in Hown.
      apply existsb_exists in Hown as ([p0 s0] & Hin0 & Hc). simpl in Hc.
      apply andb_true_iff in Hc as [Hp0 _]. apply Nat.eqb_eq in Hp0. subst p0.
      apply in_map_iff. exists (pk, s0). split; [| exact Hin0].
      simpl. rewrite Nat.eqb_refl. reflexivity.
    + intros p r Hne. split.
      * intros Hin. apply In_save_update in Hin as (s0 & Hin & [[Hp _] | [_ ->]]);
          [contradiction | exact Hin].
      * intros Hin. apply in_map_iff. exists (p, r). split; [| exact Hin].
        simpl. apply Nat.eqb_neq in Hne. rewrite Hne. reflexivity.
  - split; [left; reflexivity | split; [reflexivity |]].
    intros p r Hne. split.
    + intros [Heq | Hin]; [injection Heq as Hp _; congruence | exact Hin].
    + intros Hin. right. exact Hin.
Qed.

Lemma schedule_request_saves_witness :
  schedule_request 1 (Update 0) sub_mon_10_11 store_mon_9_10
  = inr (mkStore [(0%nat, mon_10_11)] 1)
  /\ In (0%nat, mon_10_11) [(0%nat, mon_10_11)].
Proof.
  assert (Hreq : schedule_request 1 (Update 0) sub_mon_10_11 store_mon_9_10
                 = inr (mkStore [(0%nat, mon_10_11)] 1))
    by (vm_compute; reflexivity).
  split; [exact Hreq |].
  destruct (schedule_request_saves 1 (Update 0) sub_mon_10_11 store_mon_9_10 _ Hreq)
    as (wd & s & e & Hw & Hs & He & Hin & _).
  simpl in Hw, Hs, He, Hin. injection Hw as <-. injection Hs as <-.
  injection He as <-. exact Hin.
Defined.

(* ------------------------------------------------------------------ *)
(** ** Marking a lesson paid *)

(** Extra: when the lesson table has distinct keys, [mark_paid] succeeds
    only for a teacher of the lesson sending a JSON boolean [b], answers
    with [b], and changes nothing but the [is_paid] column of that lesson;
    that change is lost when the lesson has an [end_time]. A failed
    request leaves the table unchanged. *)
Theorem mark_paid_only_is_paid : forall u pk v db,
  NoDup (map row_pk db) ->
  (forall b, fst (mark_paid u pk v db) = inr b ->
     v = Some (JBool b) /\ user_role u = Some ROLE_TEACHER
     /\ exists r, get_object u db pk = Some r
        /\ user_teacher_profile u = Some (lesson_teacher (row_lesson r))
        /\ snd (mark_paid u pk v db)
           = match lesson_end_time (row_lesson r) with
             | None => map (fun x => if Nat.eqb (row_pk x) pk then set_paid x b else x) db
             | Some _ => db
             end)
  /\ (forall err, fst (mark_paid u pk v db) = inl err -> snd (mark_paid u pk v db) = db).
Proof.
  intros u pk v db Hnd. split.
  - intros b H. unfold mark_paid in H |- *.
    destruct (role_is (user_role u) ROLE_TEACHER) eqn:Hrole; [| discriminate].
    simpl in H |- *.
    destruct (get_object u db pk) as [r |] eqn:Hg; [| discriminate].
    destruct (profile_is (user_teacher_profile u) (lesson_teacher (row_lesson r)))
      eqn:Hp; [| discriminate].
    simpl in H |- *.
    destruct v as [[b' |] |]; try discriminate.
    injection H as <-. split; [reflexivity |].
    split; [destruct (user_role u) as [[] |]; simpl in Hrole; congruence |].
    exists r. split; [reflexivity |].
    split; [destruct (user_teacher_profile u) as [x |]; [| discriminate];
            apply Nat.eqb_eq in Hp; subst; reflexivity |].
    apply get_object_in in Hg as (Hr & Hpk & _).
    unfold Lesson_save_row. simpl.
    destruct (lesson_end_time (row_lesson r)); [reflexivity |].
    apply map_ext_in. intros x Hx. rewrite Hpk.
    destruct (Nat.eqb_spec (row_pk x) pk) as [Hxp | _]; [| reflexivity].
    rewrite (NoDup_row_pk_eq db x r Hnd Hx Hr (eq_trans Hxp (eq_sym Hpk))).
    reflexivity.
  - intros err H. unfold mark_paid in H |- *.
    destruct (negb _); [reflexivity |].
    destruct (get_object u db pk) as [r |]; [| reflexivity].
    destruct (negb _); [reflexivity |].
    destruct v as [[b |] |]; [discriminate | reflexivity | reflexivity].
Qed.

Lemma mark_paid_only_is_paid_witness :
  snd (mark_paid teacher_1 1 (Some (JBool true)) [row_1; row_2])
  = [set_paid row_1 true; row_2]
  /\ snd (mark_paid teacher_1 3 (Some (JBool true)) [row_3]) = [row_3].
Proof.
  split.
  - destruct (proj1 (mark_paid_only_is_paid teacher_1 1 (Some (JBool true))
                       [row_1; row_2] ltac:(simpl; repeat constructor; simpl; lia))
                true eq_refl) as (_ & _ & r & Hg & _ & Hsnd).
    rewrite Hsnd. simpl in Hg. injection Hg as <-. reflexivity.
  - destruct (proj1 (mark_paid_only_is_paid teacher_1 3 (Some (JBool true))
                       [row_3] ltac:(simpl; repeat constructor; simpl; lia))
                true eq_refl) as (_ & _ & r & Hg & _ & Hsnd).
    rewrite Hsnd. simpl in Hg. injection Hg as <-. reflexivity.
Defined.
